(** * blocks-script: the ScriptBase adapter and the metadata declarators

    A shallow embedding of [system_lib/ScriptBase.js] and of the declarator
    functions [driver], [roleRequired], [min], [max] and [resource], over a
    small model of the JavaScript values, objects and built-ins this code
    touches.

    - [JS]: values, own properties, the object heap, the metadata store,
      the host environment and the monad the code runs in.
    - [ScriptBase]: the constructor and the five prototype methods, and the
      two accessor functions [property] hands to [Object.defineProperty].
    - [Decorators]: the declarators that write metadata themselves.
    - [HostDeclarators]: the declarators that go through [$metaSupport$].
    - [Examples], [DeclaratorExamples], [AccessorExamples]: concrete hosts
      used to run the definitions.
    - [Contract], [Reading]: the notions the properties are stated with.
    - [JSFacts], [ScriptBaseSpec], [DecoratorsSpec], [ScriptBaseMore],
      [DecoratorsMore]: the proofs. *)

From Stdlib Require Import ZArith Lia.
From stdpp Require Import gmap strings list fin_maps pretty.

Open Scope string_scope.
Open Scope list_scope.

(* ===================================================================== *)
(** ** JavaScript values, objects and effects                             *)
(* ===================================================================== *)

Module JS.

(** Numbers.  The code compares numbers ([!==], [<]), tests them for
    truthiness ([||], [&&]) and counts with them ([++i]); it does no other
    arithmetic.  The model keeps the integers and NaN, which is what those
    three operations distinguish; -0 is identified with +0 (no operation
    used here tells them apart), and fractions and the infinities are left
    out. *)
Inductive Num : Type :=
  | NaN
  | Int (z : Z).

Definition loc := N.

Inductive Val : Type :=
  | VUndef
  | VNull
  | VBool (b : bool)
  | VNum (n : Num)
  | VStr (s : string)
  | VRef (l : loc).          (* any object: ordinary, array, function, host *)

(** What a [throw] carries: the built-in errors raised by the language
    itself, or whatever value host code throws. *)
Inductive Exn : Type :=
  | TypeError
  | Thrown (v : Val).

(** IEEE equality on the modelled numbers: NaN equals nothing. *)
Definition num_eq (a b : Num) : bool :=
  match a, b with
  | Int x, Int y => (x =? y)%Z
  | _, _ => false
  end.

(** [a === b] *)
Definition strict_eq (a b : Val) : bool :=
  match a, b with
  | VUndef, VUndef => true
  | VNull, VNull => true
  | VBool x, VBool y => bool_decide (x = y)
  | VNum x, VNum y => num_eq x y
  | VStr x, VStr y => bool_decide (x = y)
  | VRef x, VRef y => bool_decide (x = y)
  | _, _ => false
  end.

(** [a !== b] *)
Definition strict_neq (a b : Val) : bool := negb (strict_eq a b).

(** ToBoolean: the falsy values are undefined, null, false, 0, NaN and the
    empty string. *)
Definition to_boolean (v : Val) : bool :=
  match v with
  | VUndef | VNull => false
  | VBool b => b
  | VNum NaN => false
  | VNum (Int z) => negb (z =? 0)%Z
  | VStr s => negb (bool_decide (s = ""))
  | VRef _ => true
  end.

(** [a || b] on values that are already evaluated. *)
Definition js_or (a b : Val) : Val := if to_boolean a then a else b.

(** The function objects that can sit in the get and set slots of an
    accessor property.  The two closures created by [ScriptBase.property]
    are kept as data (the variables they close over); their bodies are
    [ScriptBase.run_getter] and [ScriptBase.run_setter].  Any other
    function is a value the host environment knows how to call. *)
Inductive Getter : Type :=
  | ShimGet (gsFunc : Val)                       (* ScriptBase.js:13 and :20 *)
  | OtherGet (f : Val).

Inductive Setter : Type :=
  | ShimSet (name : string) (gsFunc : Val)       (* ScriptBase.js:23 *)
  | OtherSet (f : Val).

(** An own property of an ordinary object, with its attributes. *)
Inductive OwnProp : Type :=
  | Data (value : Val) (writable enumerable configurable : bool)
  | Accessor (get : option Getter) (set : option Setter)
             (enumerable configurable : bool).

Inductive Obj : Type :=
  | OPlain (props : gmap string OwnProp) (extensible : bool)
  | OArray (elems : list Val)
  | OOpaque.       (* a function or a host object: only the host can look inside *)

(** The property descriptor literals of ScriptBase.js: [{get: g}] and
    [{get: g, set: s}].  [d_set = None] is a descriptor without a [set]
    field. *)
Record Desc : Type := MkDesc { d_get : Getter; d_set : option Setter }.

(** A metadata entry is addressed by the target object, the property key
    (absent for a class-level entry) and the metadata key. *)
Definition MetaKey : Type := loc * option string * string.

Record World (H : Type) : Type := MkWorld {
  heap : gmap loc Obj;
  meta : gmap MetaKey Val;
  host : H
}.
Arguments MkWorld {H} _ _ _.
Arguments heap {H} _.
Arguments meta {H} _.
Arguments host {H} _.

Inductive Outcome (A : Type) : Type :=
  | Ret (a : A)
  | Throw (e : Exn)
  | Unmodelled.      (* the run left the fragment of JavaScript modelled here *)
Arguments Ret {A} _.
Arguments Throw {A} _.
Arguments Unmodelled {A}.

(** What ScriptBase itself does to the outside, in program order. *)
Inductive Event : Type :=
  | EvCall (f : Val) (args : list Val)                     (* f(args) *)
  | EvMethod (recv : Val) (m : string) (args : list Val)   (* recv.m(args) *)
  | EvDefine (o : loc) (name : string) (d : Desc).         (* Object.defineProperty(o, name, d) *)

(** The host: how a function value behaves when called with a [this] and
    arguments, how a method of a host object behaves, and the engine's
    string-to-number conversion.  Host code may read and change the whole
    world, and may throw. *)
Record HostEnv (H : Type) : Type := MkHostEnv {
  call_fn : Val -> Val -> list Val -> World H -> Outcome Val * World H;
  call_method : Val -> string -> list Val -> World H -> Outcome Val * World H;
  string_to_number : string -> Num
}.
Arguments MkHostEnv {H} _ _ _.
Arguments call_fn {H} _ _ _ _ _.
Arguments call_method {H} _ _ _ _ _.
Arguments string_to_number {H} _ _.

Record Run (H A : Type) : Type := MkRun {
  events : list Event;
  final : World H;
  outcome : Outcome A
}.
Arguments MkRun {H A} _ _ _.
Arguments events {H A} _.
Arguments final {H A} _.
Arguments outcome {H A} _.

Definition M (H A : Type) : Type := World H -> Run H A.

Section Monad.
Context {H : Type}.

Definition ret {A} (a : A) : M H A := fun w => MkRun [] w (Ret a).
Definition throw {A} (e : Exn) : M H A := fun w => MkRun [] w (Throw e).
Definition unmodelled {A} : M H A := fun w => MkRun [] w Unmodelled.

Definition bind {A B} (m : M H A) (k : A -> M H B) : M H B := fun w =>
  let r := m w in
  match outcome r with
  | Ret a =>
      let r' := k a (final r) in
      MkRun (events r ++ events r') (final r') (outcome r')
  | Throw e => MkRun (events r) (final r) (Throw e)
  | Unmodelled => MkRun (events r) (final r) Unmodelled
  end.

Definition get_world : M H (World H) := fun w => MkRun [] w (Ret w).
Definition set_heap (h : gmap loc Obj) : M H unit := fun w =>
  MkRun [] (MkWorld h (meta w) (host w)) (Ret tt).
Definition set_meta (m : gmap MetaKey Val) : M H unit := fun w =>
  MkRun [] (MkWorld (heap w) m (host w)) (Ret tt).
Definition emit (e : Event) : M H unit := fun w => MkRun [e] w (Ret tt).
Definition lift_host (f : World H -> Outcome Val * World H) : M H Val := fun w =>
  let '(o, w') := f w in MkRun [] w' o.
End Monad.

Declare Scope js_scope.
Delimit Scope js_scope with js.
Notation "'let*' x ':=' c1 'in' c2" := (bind c1 (fun x => c2))
  (at level 10, x name, c1 at level 100, c2 at level 200) : js_scope.
Notation "'do' c1 'then' c2" := (bind c1 (fun _ => c2))
  (at level 10, c1 at level 100, c2 at level 200) : js_scope.
Open Scope js_scope.

Section Builtins.
Context {H : Type} (env : HostEnv H).

(** [f(args)] or [f.call(this, args)] for a function value [f]. *)
Definition call (f this : Val) (args : list Val) : M H Val :=
  do emit (EvCall f args) then lift_host (call_fn env f this args).

(** [recv.m(args)].  Reading a property of undefined or null is a
    TypeError raised before any host code runs; everything else is up to
    the receiver. *)
Definition method_call (recv : Val) (m : string) (args : list Val) : M H Val :=
  match recv with
  | VUndef | VNull => throw TypeError
  | _ => do emit (EvMethod recv m args) then lift_host (call_method env recv m args)
  end.

(** A new object at an address the heap does not use yet. *)
Definition alloc (o : Obj) : M H loc := fun w =>
  let l := fresh (dom (heap w)) in
  MkRun [] (MkWorld (<[l := o]> (heap w)) (meta w) (host w)) (Ret l).

(** [Array.isArray(v)] *)
Definition is_array (v : Val) (w : World H) : bool :=
  match v with
  | VRef l => match heap w !! l with Some (OArray _) => true | _ => false end
  | _ => false
  end.

(** The own property [k] of the ordinary object at [l], if any. *)
Definition own_prop (w : World H) (l : loc) (k : string) : option OwnProp :=
  match heap w !! l with
  | Some (OPlain ps _) => ps !! k
  | _ => None
  end.

(** ValidateAndApplyPropertyDescriptor for the two descriptor shapes of
    ScriptBase.js (a [get] field, perhaps a [set] field, and no
    [enumerable] or [configurable] field), on the current own property
    [cur] of an object with the given extensibility.  [None] is a
    rejection.
    - no current property: created non-enumerable and non-configurable,
      unless the object is not extensible;
    - a non-configurable current property: rejected, as the descriptor's
      functions are fresh closures and equal no function already there;
    - a configurable data property: replaced by the accessor, keeping the
      [enumerable] attribute;
    - a configurable accessor: the fields the descriptor has are
      overwritten, so without a [set] field the old setter stays. *)
Definition apply_desc (cur : option OwnProp) (extensible : bool) (d : Desc)
  : option OwnProp :=
  match cur with
  | None =>
      if extensible then Some (Accessor (Some (d_get d)) (d_set d) false false)
      else None
  | Some (Data _ _ e c) =>
      if c then Some (Accessor (Some (d_get d)) (d_set d) e true) else None
  | Some (Accessor _ s0 e c) =>
      if c then
        Some (Accessor (Some (d_get d))
                       (match d_set d with Some s => Some s | None => s0 end)
                       e true)
      else None
  end.

(** [Object.defineProperty(o, name, d)] for an ordinary object [o]; a
    rejected definition throws a TypeError and leaves the object as it
    is.  Arrays and opaque objects as [o] are outside the model. *)
Definition define_property (o : loc) (name : string) (d : Desc) : M H unit :=
  do emit (EvDefine o name d) then
  let* w := get_world in
  match heap w !! o with
  | Some (OPlain ps ext) =>
      match apply_desc (ps !! name) ext d with
      | Some p => set_heap (<[o := OPlain (<[name := p]> ps) ext]> (heap w))
      | None => throw TypeError
      end
  | _ => unmodelled
  end.

(** Modelled from the spec: the reflection-metadata store behind
    [Reflect.defineMetadata(key, value, target, propertyKey)] is not part
    of the repository.  The spec has the declarators write a string-named
    metadata key against a target class, method or field, for later
    retrieval: the store is a finite map from (target, property key,
    metadata key) to the value written last.  A target that is not an
    object has no identity to write against and is refused with a
    TypeError, as the reflect-metadata package does. *)
Definition defineMetadata (key : string) (value target : Val)
    (propertyKey : option string) : M H Val :=
  match target with
  | VRef t =>
      let* w := get_world in
      do set_meta (<[(t, propertyKey, key) := value]> (meta w)) then
      ret VUndef
  | _ => throw TypeError
  end.

(** [Reflect.getMetadata]'s own-entry lookup on the same store. *)
Definition getOwnMetadata (w : World H) (key : string) (t : loc)
    (propertyKey : option string) : option Val :=
  meta w !! (t, propertyKey, key).
End Builtins.

End JS.

(* ===================================================================== *)
(** ** system_lib/ScriptBase.js                                           *)
(* ===================================================================== *)

Module ScriptBase.
Import JS.

Section Code.
Context {H : Type} (env : HostEnv H).

(** *** The two closures of [property] *)

(** ScriptBase.js:13-15 and 20-22:
    [function () { return gsFunc(); }] *)
Definition shim_get (gsFunc : Val) : M H Val :=
  call env gsFunc VUndef [].

(** Calling whatever sits in the get slot of an accessor property. *)
Definition run_getter (g : Getter) (this : Val) : M H Val :=
  match g with
  | ShimGet gsFunc => shim_get gsFunc
  | OtherGet f => call env f this []
  end.

(** *** Reading a property: [v.k] and [v[i]] *)

(** The property key of index [i] is its decimal numeral. *)
Definition index_key (i : nat) : string := pretty i.

(** The index below [n] that the key [k] names, if it names one. *)
Definition key_index (n : nat) (k : string) : option nat :=
  List.find (fun i => bool_decide (index_key i = k)) (seq 0 n).

(** A string has a [length] and one-character strings at its indices. *)
Definition string_prop (s : string) (k : string) : Val :=
  if bool_decide (k = "length") then VNum (Int (Z.of_nat (String.length s)))
  else match key_index (String.length s) k with
       | Some i => match String.get i s with
                   | Some c => VStr (String c EmptyString)
                   | None => VUndef
                   end
       | None => VUndef
       end.

Definition array_prop (xs : list Val) (k : string) : Val :=
  if bool_decide (k = "length") then VNum (Int (Z.of_nat (length xs)))
  else match key_index (length xs) k with
       | Some i => default VUndef (xs !! i)
       | None => VUndef
       end.

(** [v.k].  Own properties only: the prototypes in play
    ([ScriptBase.prototype], [Object.prototype]) define none of the names
    this code reads ([__scriptFacade], [readOnly], [length], indices). *)
Definition get_prop (v : Val) (k : string) : M H Val :=
  match v with
  | VUndef | VNull => throw TypeError
  | VBool _ | VNum _ => ret VUndef
  | VStr s => ret (string_prop s k)
  | VRef l =>
      let* w := get_world in
      match heap w !! l with
      | Some (OPlain ps _) =>
          match ps !! k with
          | Some (Data x _ _ _) => ret x
          | Some (Accessor (Some g) _ _ _) => run_getter g v
          | Some (Accessor None _ _ _) => ret VUndef
          | None => ret VUndef
          end
      | Some (OArray xs) => ret (array_prop xs k)
      | Some OOpaque | None => unmodelled
      end
  end.

(** ScriptBase.js:23-27:
    [function (value) {
       var oldValue = gsFunc();
       if (oldValue !== gsFunc(value))
         this.__scriptFacade.changed(name);
     }] *)
Definition shim_set (name : string) (gsFunc : Val) (this value : Val) : M H Val :=
  let* oldValue := call env gsFunc VUndef [] in
  let* newValue := call env gsFunc VUndef [value] in
  if strict_neq oldValue newValue then
    let* facade := get_prop this "__scriptFacade" in
    do method_call env facade "changed" [VStr name] then
    ret VUndef
  else ret VUndef.

Definition run_setter (s : Setter) (this value : Val) : M H Val :=
  match s with
  | ShimSet name gsFunc => shim_set name gsFunc this value
  | OtherSet f => call env f this [value]
  end.

(** *** Writing a property: [o[k] = v] *)

(** An assignment that the object refuses is a TypeError in strict code
    and is silently dropped in sloppy code. *)
Definition refused (strict : bool) : M H unit :=
  if strict then throw TypeError else ret tt.

(** [o[k] = v] on an ordinary object (own properties only, as for
    [get_prop]). *)
Definition set_prop (strict : bool) (o : loc) (k : string) (v : Val) : M H unit :=
  let* w := get_world in
  match heap w !! o with
  | Some (OPlain ps ext) =>
      match ps !! k with
      | Some (Data _ true e c) =>
          set_heap (<[o := OPlain (<[k := Data v true e c]> ps) ext]> (heap w))
      | Some (Data _ false _ _) => refused strict
      | Some (Accessor _ (Some s) _ _) =>
          do run_setter s (VRef o) v then ret tt
      | Some (Accessor _ None _ _) => refused strict
      | None =>
          if ext
          then set_heap (<[o := OPlain (<[k := Data v true true true]> ps) ext]> (heap w))
          else refused strict
      end
  | _ => unmodelled
  end.

(** *** The class *)

(** ScriptBase.js:6-8, called with [new]. *)
Definition new_ScriptBase (scriptFacade : Val) : M H loc :=
  let* this := alloc (OPlain ∅ true) in
  do set_prop true this "__scriptFacade" scriptFacade then
  ret this.

(** [options && options.readOnly], as a condition. *)
Definition is_read_only (options : Val) : M H bool :=
  if to_boolean options then
    let* r := get_prop options "readOnly" in ret (to_boolean r)
  else ret false.

(** The descriptor literals of ScriptBase.js:12-16 and 19-28. *)
Definition getter_only (gsFunc : Val) : Desc :=
  MkDesc (ShimGet gsFunc) None.
Definition getter_setter (name : string) (gsFunc : Val) : Desc :=
  MkDesc (ShimGet gsFunc) (Some (ShimSet name gsFunc)).

(** ScriptBase.js:9-30 *)
Definition property (this : loc) (name : string) (options gsFunc : Val) : M H Val :=
  let* facade := get_prop (VRef this) "__scriptFacade" in
  do method_call env facade "property" [VStr name; options; gsFunc] then
  let* readOnly := is_read_only options in
  if readOnly then
    do define_property this name (getter_only gsFunc) then ret VUndef
  else
    do define_property this name (getter_setter name gsFunc) then ret VUndef.

(** ScriptBase.js:31-33 *)
Definition indexedProperty (this : loc) (name itemType : Val) : M H Val :=
  let* facade := get_prop (VRef this) "__scriptFacade" in
  method_call env facade "indexedProperty" [name; itemType].

(** ScriptBase.js:34-36 *)
Definition changed (this : loc) (propName : Val) : M H Val :=
  let* facade := get_prop (VRef this) "__scriptFacade" in
  do method_call env facade "changed" [propName] then
  ret VUndef.

(** ScriptBase.js:37-39 *)
Definition unsubscribe (this : loc) (event listener : Val) : M H Val :=
  let* facade := get_prop (VRef this) "__scriptFacade" in
  do method_call env facade "unsubscribe" [event; listener] then
  ret VUndef.

(** How many of i = 0, 1, 2, ... satisfy [i < length].  [<] converts
    [length] to a number: undefined becomes NaN, null 0, false 0, true 1,
    a string what the engine parses it to.  An object is converted by
    running its own [valueOf]/[toString] at every comparison, which is
    outside the model. *)
Definition loop_bound (length : Val) : option nat :=
  match length with
  | VNum (Int z) => Some (Z.to_nat z)
  | VNum NaN | VUndef | VNull => Some 0
  | VBool b => Some (if b then 1 else 0)
  | VStr s => Some (match string_to_number env s with
                    | Int z => Z.to_nat z
                    | NaN => 0
                    end)
  | VRef _ => None
  end.

(** [result.push(x)] on the array at [result]. *)
Definition array_push (result : loc) (x : Val) : M H unit :=
  let* w := get_world in
  match heap w !! result with
  | Some (OArray xs) => set_heap (<[result := OArray (xs ++ [x])]> (heap w))
  | _ => unmodelled
  end.

(** ScriptBase.js:45-46, with [n] rounds left to go from index [i]:
    [for (...; i < length; ++i) result.push(arr[i]);] *)
Fixpoint push_from (n i : nat) (arr : Val) (result : loc) : M H unit :=
  match n with
  | O => ret tt
  | S n' =>
      let* x := get_prop arr (index_key i) in
      do array_push result x then
      push_from n' (S i) arr result
  end.

(** ScriptBase.js:40-48 *)
Definition makeJSArray (arr : Val) : M H Val :=
  let* w := get_world in
  if is_array arr w then ret arr
  else
    let* result := alloc (OArray []) in
    let* length := get_prop arr "length" in
    match loop_bound length with
    | Some n => do push_from n 0 arr result then ret (VRef result)
    | None => unmodelled
    end.
End Code.

End ScriptBase.

(* ===================================================================== *)
(** ** The declarators                                                    *)
(* ===================================================================== *)

Module Decorators.
Import JS.

(** ['NetworkTCP'|'NetworkUDP'] *)
Inductive BaseDriverType : Type := NetworkTCP | NetworkUDP.

Definition base_driver_type (b : BaseDriverType) : Val :=
  match b with
  | NetworkTCP => VStr "NetworkTCP"
  | NetworkUDP => VStr "NetworkUDP"
  end.

(** [type RoleRequired] *)
Inductive RoleRequired : Type :=
  Admin | Manager | Creator | Editor | Contributor | Staff | Spot.

Definition role (r : RoleRequired) : Val :=
  VStr match r with
       | Admin => "Admin" | Manager => "Manager" | Creator => "Creator"
       | Editor => "Editor" | Contributor => "Contributor"
       | Staff => "Staff" | Spot => "Spot"
       end.

(** [type ResourceVerb] *)
Inductive ResourceVerb : Type := GET | POST.

Definition resource_verb (v : ResourceVerb) : Val :=
  match v with GET => VStr "GET" | POST => VStr "POST" end.

(** An optional parameter [p?: T]: the argument, or undefined when the
    caller leaves it out. *)
Definition optional {T} (inj : T -> Val) (p : option T) : Val :=
  match p with Some x => inj x | None => VUndef end.

(** A data property as an object literal creates it. *)
Definition own_field (v : Val) : OwnProp := Data v true true true.

Section Code.
Context {H : Type}.

(** The [DriverInfo] literal of lines 41-44: the object, then the array
    in its [paramTypes] field. *)
Definition driver_info (baseDriverType typeSpecificMeta : Val) : M H loc :=
  let* info := alloc (OPlain ∅ true) in
  let* paramTypes := alloc (OArray [baseDriverType]) in
  let* w := get_world in
  do set_heap (<[info := OPlain {[ "paramTypes" := own_field (VRef paramTypes);
                                   "info" := own_field typeSpecificMeta ]} true]>
                 (heap w)) then
  ret info.

(** Lines 40-48.  The result is the decorator, a function of the class. *)
Definition driver (baseDriverType : BaseDriverType) (typeSpecificMeta : Val)
  : M H (Val -> M H Val) :=
  let* info := driver_info (base_driver_type baseDriverType) typeSpecificMeta in
  ret (fun target => defineMetadata "pixi:driver" (VRef info) target None).

(** Lines 70-74. *)
Definition roleRequired (r : RoleRequired) : Val -> M H Val :=
  fun target => defineMetadata "pixi:roleRequired" (role r) target None.

(** Lines 149-153.  The decorator's body has no [return]. *)
Definition min (min : Num) : Val -> string -> M H Val :=
  fun target propertyKey =>
    do defineMetadata "pixi:min" (VNum min) target (Some propertyKey) then
    ret VUndef.

(** Lines 155-159. *)
Definition max (max : Num) : Val -> string -> M H Val :=
  fun target propertyKey =>
    do defineMetadata "pixi:max" (VNum max) target (Some propertyKey) then
    ret VUndef.

(** The literal of lines 206-209. *)
Definition resource_info (auth verb : Val) : M H loc :=
  alloc (OPlain {[ "auth" := own_field auth; "verb" := own_field verb ]} true).

(** Lines 201-212. *)
Definition resource (roleRequired : option RoleRequired)
    (verb : option ResourceVerb) : Val -> string -> M H Val :=
  fun target propertyKey =>
    let* info := resource_info (js_or (optional role roleRequired) (VStr ""))
                               (js_or (optional resource_verb verb) (VStr "POST")) in
    defineMetadata "pixi:resource" (VRef info) target (Some propertyKey).
End Code.

End Decorators.

(* ===================================================================== *)
(** ** A concrete host                                                    *)
(* ===================================================================== *)

(** A script with one numeric property, [level], kept between 0 and 100 by
    its accessor function, and three host objects: a facade that records
    what it is told, a facade that refuses every registration, and the
    accessor function itself. *)
Module Examples.
Import JS.

Record Panel : Type := MkPanel {
  level : Z;
  registered : list Val;     (* names passed to facade.property *)
  notified : list Val        (* names passed to facade.changed *)
}.

Definition facade : loc := 1%N.
Definition strict_facade : loc := 2%N.
Definition levelAccessor : loc := 3%N.
Definition indexed : loc := 4%N.

Definition with_host (w : World Panel) (p : Panel) : World Panel :=
  MkWorld (heap w) (meta w) p.

(** [function (v) { if (typeof v === 'number') level = clamp(v); return level; }] *)
Definition level_fn (args : list Val) (w : World Panel) : Outcome Val * World Panel :=
  match args with
  | VNum (Int z) :: _ =>
      let z' := Z.max 0 (Z.min 100 z) in
      (Ret (VNum (Int z')),
       with_host w (MkPanel z' (registered (host w)) (notified (host w))))
  | _ => (Ret (VNum (Int (level (host w)))), w)
  end.

Definition facade_method (m : string) (args : list Val) (w : World Panel)
  : Outcome Val * World Panel :=
  let p := host w in
  if bool_decide (m = "property") then
    (Ret VUndef, with_host w (MkPanel (level p) (registered p ++ take 1 args) (notified p)))
  else if bool_decide (m = "changed") then
    (Ret (VBool true), with_host w (MkPanel (level p) (registered p) (notified p ++ take 1 args)))
  else if bool_decide (m = "indexedProperty") then (Ret (VRef indexed), w)
  else if bool_decide (m = "unsubscribe") then (Ret VNull, w)
  else (Throw TypeError, w).

Definition panel_env : HostEnv Panel :=
  MkHostEnv
    (fun f _ args w =>
       if strict_eq f (VRef levelAccessor) then level_fn args w
       else (Throw TypeError, w))
    (fun recv m args w =>
       if strict_eq recv (VRef facade) then facade_method m args w
       else if strict_eq recv (VRef strict_facade)
            then (Throw (Thrown (VStr "refused")), w)
            else (Throw TypeError, w))
    (fun _ => NaN).

(** The host objects, before any script object exists. *)
Definition boot : World Panel :=
  MkWorld (list_to_map [(facade, OOpaque); (strict_facade, OOpaque);
                        (levelAccessor, OOpaque); (indexed, OOpaque)])
          ∅
          (MkPanel 10 [] []).

(** The world and the instance after [new ScriptBase(f)]. *)
Definition started (f : loc) : World Panel :=
  final (ScriptBase.new_ScriptBase panel_env (VRef f) boot).
Definition this : loc := 5%N.

(** ... and after [this.property("level", options, levelAccessor)]. *)
Definition with_level (options : Val) : World Panel :=
  final (ScriptBase.property panel_env this "level" options (VRef levelAccessor)
           (started facade)).

(** An object as the host hands over a list: [length] and the indices. *)
Definition array_like (xs : list Val) : Obj :=
  OPlain (<["length" := Data (VNum (Int (Z.of_nat (length xs)))) false false false]>
            (list_to_map (imap (fun i x => (ScriptBase.index_key i, Data x true true true)) xs)))
         true.

Definition three : list Val := [VStr "a"; VNum (Int 7); VNull].
Definition with_list : World Panel :=
  MkWorld (<[9%N := array_like three]> (heap boot)) ∅ (host boot).

(** An options object [{readOnly: true}] at address 6. *)
Definition with_options : World Panel :=
  MkWorld (<[6%N := OPlain {[ "readOnly" := Data (VBool true) true true true ]} true]>
             (heap (started facade)))
          ∅ (host boot).
End Examples.

(* ===================================================================== *)
(** ** Notions used to state the properties                               *)
(* ===================================================================== *)

Module Contract.
Import JS.

(** The value of a data property, when the property is one. *)
Definition data_value (p : option OwnProp) : option Val :=
  match p with
  | Some (Data v _ _ _) => Some v
  | _ => None
  end.

(** Whether the property is an accessor that carries a setter. *)
Definition has_setter (p : option OwnProp) : bool :=
  match p with
  | Some (Accessor _ (Some _) _ _) => true
  | _ => false
  end.

(** A receiver on which a method can be looked up. *)
Definition not_nullish (v : Val) : bool :=
  match v with
  | VUndef | VNull => false
  | _ => true
  end.

Section Notions.
Context {H : Type} (env : HostEnv H).

(** The instance at [this] holds [f] in its [__scriptFacade] field, as
    the constructor leaves it. *)
Definition facade_is (w : World H) (this : loc) (f : Val) : Prop :=
  data_value (own_prop w this "__scriptFacade") = Some f.

(** A pass-through to the facade, in the spec's words: the facade's
    method of the same name, on the same arguments. *)
Definition pass_through (f : Val) (m : string) (args : list Val) : M H Val :=
  method_call env f m args.

(** The same run, for a caller that gets no value back. *)
Definition discard (m : M H Val) : M H Val := fun w =>
  let r := m w in
  MkRun (events r) (final r)
        (match outcome r with Ret _ => Ret VUndef | o => o end).

(** The part of [property] that comes before [Object.defineProperty]:
    the facade call of line 10 and the test of line 11. *)
Definition registration (this : loc) (name : string) (options gsFunc : Val)
  : M H bool :=
  let* facade := ScriptBase.get_prop env (VRef this) "__scriptFacade" in
  do method_call env facade "property" [VStr name; options; gsFunc] then
  ScriptBase.is_read_only env options.

(** An ordinary object is array-like with elements [xs] when its
    [length] is their number and index [i] holds [xs !! i]. *)
Definition array_like (ps : gmap string OwnProp) (xs : list Val) : Prop :=
  data_value (ps !! "length") = Some (VNum (Int (Z.of_nat (length xs)))) /\
  forall i x, xs !! i = Some x ->
              data_value (ps !! ScriptBase.index_key i) = Some x.

(** The value [v] is, in [w], an array or an array-like object with
    elements [xs]. *)
Definition elements (w : World H) (v : Val) (xs : list Val) : Prop :=
  exists l, v = VRef l /\
    match heap w !! l with
    | Some (OArray ys) => ys = xs
    | Some (OPlain ps _) => array_like ps xs
    | _ => False
    end.

(** The world [w] with another heap. *)
Definition with_heap (w : World H) (h : gmap loc Obj) : World H :=
  MkWorld h (meta w) (host w).

(** The world [w] with another metadata store. *)
Definition with_meta (w : World H) (m : gmap MetaKey Val) : World H :=
  MkWorld (heap w) m (host w).

(** Whether the event is a call of [Object.defineProperty]. *)
Definition is_define (e : Event) : bool :=
  match e with EvDefine _ _ _ => true | _ => false end.
End Notions.

End Contract.

(* ===================================================================== *)
(** ** The declarators that go through [$metaSupport$]                    *)
(* ===================================================================== *)

Module HostDeclarators.
Import JS.

Section Code.
Context {H : Type} (env : HostEnv H).

(** The value of the ambient global [$metaSupport$] (lines 7-21), which
    the host installs.  A global the host never declared cannot be read
    at all and is not a value of this parameter. *)
Context (metaSupport : Val).

(** [$metaSupport$.m(args)]: the method is looked up on the global before
    the arguments are evaluated, so undefined or null there is a TypeError
    raised before any argument object exists. *)
Definition metaSupport_call (m : string) (args : M H (Datatypes.list Val)) : M H Val :=
  match metaSupport with
  | VUndef | VNull => throw TypeError
  | _ => let* a := args in method_call env metaSupport m a
  end.

(** An object literal with the given fields. *)
Definition literal (fields : gmap string OwnProp) : M H Val :=
  let* o := alloc (OPlain fields true) in ret (VRef o).

(** Lines 51-53. *)
Definition record (description : option string) : M H Val :=
  metaSupport_call "record" (ret [Decorators.optional VStr description]).

(** Lines 80-82. *)
Definition property (description : option string) (readOnly : option bool) : M H Val :=
  metaSupport_call "property"
    (ret [Decorators.optional VStr description; Decorators.optional VBool readOnly]).

(** Lines 88-90. *)
Definition callable (description : option string) : M H Val :=
  metaSupport_call "callable" (ret [Decorators.optional VStr description]).

(** Lines 97-102. *)
Definition parameter (description : option string) (optional : option bool) : M H Val :=
  metaSupport_call "callableParameter"
    (let* cpd := literal
        {[ "descr" := Decorators.own_field
                        (js_or (Decorators.optional VStr description) (VStr ""));
           "opt" := Decorators.own_field
                      (js_or (Decorators.optional VBool optional) (VBool false)) ]} in
     ret [cpd]).

(** Lines 110-112. *)
Definition field (description : option string) : M H Val :=
  metaSupport_call "fieldMetadata"
    (let* metadataValue := literal
        {[ "description" := Decorators.own_field (Decorators.optional VStr description) ]} in
     ret [metadataValue]).

(** Lines 123-125. *)
Definition spotParameter : M H Val :=
  metaSupport_call "spotParameter" (ret []).

(** Lines 133-135. *)
Definition id (description : option string) : M H Val :=
  metaSupport_call "fieldMetadata"
    (let* metadataValue := literal
        {[ "description" := Decorators.own_field (Decorators.optional VStr description);
           "id" := Decorators.own_field (VBool true) ]} in
     ret [metadataValue]).

(** Lines 141-143.  [ofType] is the constructor of the item class. *)
Definition list (ofType : Val) (description : option string) : M H Val :=
  metaSupport_call "fieldMetadata"
    (let* metadataValue := literal
        {[ "description" := Decorators.own_field (Decorators.optional VStr description);
           "list" := Decorators.own_field ofType ]} in
     ret [metadataValue]).
End Code.

End HostDeclarators.

(* ===================================================================== *)
(** ** Further notions and a second concrete host                         *)
(* ===================================================================== *)

Module Reading.
Import JS.

(** What reading a property gives when no getter has to run: the value of
    a data property, and undefined for a property that is absent or is an
    accessor without a getter. *)
Definition read_plain (ps : gmap string OwnProp) (k : string) : option Val :=
  match ps !! k with
  | Some (Data x _ _ _) => Some x
  | Some (Accessor None _ _ _) | None => Some VUndef
  | Some (Accessor (Some _) _ _ _) => None
  end.

(** Whether the character is a decimal digit. *)
Definition is_digit (c : Ascii.ascii) : bool :=
  let n := Ascii.nat_of_ascii c in Nat.leb 48 n && Nat.leb n 57.

Definition starts_with_digit (s : string) : bool :=
  match s with
  | String c _ => is_digit c
  | EmptyString => false
  end.

(** The characters of a string, as the one-character strings that
    indexing it gives. *)
Fixpoint characters (s : string) : list Val :=
  match s with
  | EmptyString => []
  | String c s' => VStr (String c EmptyString) :: characters s'
  end.

(** Whether a property can be neither redefined nor deleted. *)
Definition non_configurable (p : OwnProp) : bool :=
  match p with
  | Data _ _ _ c | Accessor _ _ _ c => negb c
  end.
End Reading.

Module DeclaratorExamples.
Import JS.

(** A host whose [$metaSupport$] (at address 7) answers every method with
    the first argument it was given, or with null when there was none,
    and counts the calls. *)
Definition metaSupport : Val := VRef 7%N.

Definition counting_env : HostEnv nat :=
  MkHostEnv
    (fun _ _ _ w => (Throw TypeError, w))
    (fun recv m args w =>
       if strict_eq recv metaSupport
       then (Ret (default VNull (head args)),
             MkWorld (heap w) (meta w) (S (host w)))
       else (Throw TypeError, w))
    (fun s => if bool_decide (s = "2") then Int 2 else NaN).

(** Two classes, at addresses 1 and 2, and [$metaSupport$]. *)
Definition classes : World nat :=
  MkWorld (list_to_map [(1%N, OOpaque); (2%N, OOpaque); (7%N, OOpaque)]) ∅ 0.

(** An object with holes, [{length: 3, 1: 'b'}], at address 3, and one
    with a string for a length, [{length: '2', 0: 'x'}], at address 4. *)
Definition sparse : World nat :=
  MkWorld (<[3%N := OPlain {[ "length" := Data (VNum (Int 3)) true true true;
                              "1" := Data (VStr "b") true true true ]} true]>
          (<[4%N := OPlain {[ "length" := Data (VStr "2") true true true;
                              "0" := Data (VStr "x") true true true ]} true]>
             (heap classes)))
          ∅ 0.
End DeclaratorExamples.

(** A host with one stored number.  The accessor function at address 3
    returns the number when called without an argument, stores a number it
    is given and returns it, and throws on any other argument.  The facade
    at address 1 accepts every call, except that its [changed] throws when
    the stored number is negative. *)
Module AccessorExamples.
Import JS.

Definition facade : Val := VRef 1%N.
Definition checked : Val := VRef 3%N.
Definition this : loc := 5%N.
Definition read_only_options : Val := VRef 6%N.

Definition checked_fn (args : list Val) (w : World Z) : Outcome Val * World Z :=
  match args with
  | [] => (Ret (VNum (Int (host w))), w)
  | VNum (Int z) :: _ => (Ret (VNum (Int z)), MkWorld (heap w) (meta w) z)
  | _ => (Throw (Thrown (VStr "not a number")), w)
  end.

Definition store_env : HostEnv Z :=
  MkHostEnv
    (fun f _ args w =>
       if strict_eq f checked then checked_fn args w else (Throw TypeError, w))
    (fun recv m args w =>
       if strict_eq recv facade then
         if bool_decide (m = "changed") && (host w <? 0)%Z
         then (Throw (Thrown (VStr "negative")), w)
         else (Ret VUndef, w)
       else (Throw TypeError, w))
    (fun _ => NaN).

(** The instance as [new ScriptBase(f)] leaves it, beside the host
    objects and an options object [{readOnly: true}]. *)
Definition started (f : Val) : World Z :=
  MkWorld (list_to_map
             [(1%N, OOpaque); (3%N, OOpaque);
              (this, OPlain {[ "__scriptFacade" := Data f true true true ]} true);
              (6%N, OPlain {[ "readOnly" := Data (VBool true) true true true ]} true)])
          ∅ 0%Z.

(** ... after [this.property("level", options, checked)]. *)
Definition registered (f options : Val) : World Z :=
  final (ScriptBase.property store_env this "level" options checked (started f)).

(** ... and when the script has set a plain field [level] first. *)
Definition with_field : World Z :=
  final (ScriptBase.set_prop store_env true this "level" (VNum (Int 1))
           (started facade)).
End AccessorExamples.

(* ===================================================================== *)
(** ** Running the model: general facts                                   *)
(* ===================================================================== *)

Module JSFacts.
Import JS Contract.

Section Facts.
Context {H : Type} (env : HostEnv H).
Implicit Types (w : World H) (f v : Val).

Lemma run_eq {A} (r : Run H A) : r = MkRun (events r) (final r) (outcome r).
Proof. by destruct r. Qed.

Lemma world_eta w : MkWorld (heap w) (meta w) (host w) = w.
Proof. by destruct w. Qed.

Lemma method_call_run f m args w :
  not_nullish f = true ->
  method_call env f m args w =
    MkRun [EvMethod f m args] (call_method env f m args w).2
          (call_method env f m args w).1.
Proof.
  intros Hf. destruct f; try discriminate;
    unfold method_call, bind, emit, lift_host; simpl;
    by destruct (call_method env _ m args w).
Qed.

Lemma bind_ret_run {A B} (m : M H A) (k : A -> M H B) w ev w' a :
  m w = MkRun ev w' (Ret a) ->
  bind m k w = MkRun (ev ++ events (k a w')) (final (k a w')) (outcome (k a w')).
Proof. unfold bind. by intros ->. Qed.

Lemma bind_throw_run {A B} (m : M H A) (k : A -> M H B) w ev w' e :
  m w = MkRun ev w' (Throw e) -> bind m k w = MkRun ev w' (Throw e).
Proof. unfold bind. by intros ->. Qed.

Lemma bind_unmodelled_run {A B} (m : M H A) (k : A -> M H B) w ev w' :
  m w = MkRun ev w' Unmodelled -> bind m k w = MkRun ev w' Unmodelled.
Proof. unfold bind. by intros ->. Qed.

Lemma bind_then_ret {A B} (m : M H A) (b : B) w :
  bind m (fun _ => ret b) w =
  MkRun (events (m w)) (final (m w))
        (match outcome (m w) with
         | Ret _ => Ret b
         | Throw e => Throw e
         | Unmodelled => Unmodelled
         end).
Proof.
  unfold bind, ret. destruct (m w) as [ev w1 [a| |]]; simpl; try done.
  by rewrite app_nil_r.
Qed.

Lemma bind_assoc {A B C} (m : M H A) (k : A -> M H B) (k' : B -> M H C) w :
  bind (bind m k) k' w = bind m (fun a => bind (k a) k') w.
Proof.
  unfold bind. destruct (m w) as [ev w1 [a| |]]; simpl; try done.
  destruct (k a w1) as [ev2 w2 [b| |]]; simpl; try done.
  by rewrite app_assoc.
Qed.

Lemma bind_ext {A B} (m : M H A) (k k' : A -> M H B) w :
  (forall a w', k a w' = k' a w') -> bind m k w = bind m k' w.
Proof.
  intros Hk. unfold bind. destruct (outcome (m w)); try done. by rewrite Hk.
Qed.

(** Redefining a configurable accessor with a descriptor that has no
    [set] field replaces the getter and keeps the setter that was there. *)
Lemma apply_desc_keeps_setter g0 s0 e ext g :
  apply_desc (Some (Accessor g0 s0 e true)) ext (MkDesc g None)
  = Some (Accessor (Some g) s0 e true).
Proof. reflexivity. Qed.

(** What one accepted [Object.defineProperty] leaves behind. *)
Lemma define_property_run this name d w :
  define_property this name d w =
  match heap w !! this with
  | Some (OPlain ps ext) =>
      match apply_desc (ps !! name) ext d with
      | Some p => MkRun [EvDefine this name d]
                    (MkWorld (<[this := OPlain (<[name := p]> ps) ext]> (heap w))
                             (meta w) (host w))
                    (Ret tt)
      | None => MkRun [EvDefine this name d] w (Throw TypeError)
      end
  | _ => MkRun [EvDefine this name d] w Unmodelled
  end.
Proof.
  unfold define_property, bind, emit, get_world; simpl.
  destruct (heap w !! this) as [[ps ext| |]|]; simpl; try done.
  destruct (apply_desc (ps !! name) ext d); simpl; done.
Qed.

(** [===] is equality of values, except that NaN equals nothing. *)
Lemma strict_eq_iff (a b : Val) :
  strict_eq a b = true <-> a = b /\ a <> VNum NaN.
Proof.
  destruct a as [| |x|[|x]|x|x], b as [| |y|[|y]|y|y]; simpl;
    try (split; [discriminate|intros [? ?]; congruence]);
    try (split; [done|done]);
    rewrite ?bool_decide_eq_true, ?Z.eqb_eq;
    (split; [intros ->; done|intros [[= ->] _]; done]).
Qed.

Lemma own_prop_Some w l k p :
  own_prop w l k = Some p ->
  exists ps ext, heap w !! l = Some (OPlain ps ext) /\ ps !! k = Some p.
Proof.
  unfold own_prop. destruct (heap w !! l) as [[ps ext| |]|]; try discriminate.
  eauto.
Qed.

Lemma call_run f rcv args w :
  call env f rcv args w =
  MkRun [EvCall f args] (call_fn env f rcv args w).2 (call_fn env f rcv args w).1.
Proof.
  unfold call, bind, emit, lift_host; simpl.
  by destruct (call_fn env f rcv args w).
Qed.

Lemma call_ret_run f rcv args w a w' :
  call_fn env f rcv args w = (Ret a, w') ->
  call env f rcv args w = MkRun [EvCall f args] w' (Ret a).
Proof. intros Hc. by rewrite call_run, Hc. Qed.
End Facts.

End JSFacts.

(* ===================================================================== *)
(** ** Properties of the ScriptBase adapter                               *)
(* ===================================================================== *)

Module ScriptBaseSpec.
Import JS ScriptBase Contract JSFacts.

Section Facts.
Context {H : Type} (env : HostEnv H).
Implicit Types (w : World H) (this : loc) (f v : Val).

(** Reading the facade field costs nothing and changes nothing. *)
Lemma get_facade w this f :
  facade_is w this f ->
  get_prop env (VRef this) "__scriptFacade" w = MkRun [] w (Ret f).
Proof.
  unfold facade_is, own_prop, get_prop, bind, get_world; simpl.
  destruct (heap w !! this) as [[ps ext| |]|]; simpl; try discriminate.
  destruct (ps !! "__scriptFacade") as [[x ? ? ?|]|]; simpl; try discriminate.
  by intros [= ->].
Qed.

End Facts.

Section Running.
Context {H : Type} (env : HostEnv H).
Implicit Types (w : World H) (this : loc) (f v : Val).

Lemma bind_discard (m : M H Val) w :
  bind m (fun _ => ret VUndef) w = discard m w.
Proof.
  unfold bind, discard, ret. destruct (m w) as [ev w1 [a| |]]; simpl; try done.
  by rewrite app_nil_r.
Qed.

(** [property] is its registration part followed by the one call of
    [Object.defineProperty]. *)
Lemma property_split this name options gsFunc w :
  property env this name options gsFunc w =
  bind (registration env this name options gsFunc)
       (fun readOnly =>
          do define_property this name
               (if readOnly then getter_only gsFunc else getter_setter name gsFunc)
          then ret VUndef) w.
Proof.
  unfold property, registration.
  rewrite bind_assoc. apply bind_ext; intros fc w1.
  rewrite bind_assoc. apply bind_ext; intros _ w2.
  apply bind_ext; intros [|] w3; done.
Qed.

End Running.

Section Construction.
Context {H : Type} (env : HostEnv H).

(** Lines 6-8: [new ScriptBase(f)] yields a new ordinary object whose
    [__scriptFacade] field holds [f]. *)
Lemma new_ScriptBase_facade (w : World H) (f : Val) :
  let r := new_ScriptBase env f w in
  exists this,
    outcome r = Ret this
    /\ heap w !! this = None
    /\ facade_is (final r) this f
    /\ events r = [].
Proof.
  exists (fresh (dom (heap w))).
  assert (Hfresh : heap w !! fresh (dom (heap w)) = None)
    by (apply not_elem_of_dom, is_fresh).
  unfold new_ScriptBase, facade_is, own_prop, alloc, set_prop, bind, get_world,
    set_heap, ret; simpl.
  rewrite !lookup_insert_eq. simpl. rewrite lookup_empty. simpl.
  rewrite !lookup_insert_eq. done.
Qed.
End Construction.

Section PassThrough.
Context {H : Type} (env : HostEnv H).

(** C5.  With the facade [f] in the instance's [__scriptFacade] field,
    [indexedProperty(name, itemType)] is [f.indexedProperty(name,
    itemType)], result included, and [changed(propName)] and
    [unsubscribe(event, listener)] are [f.changed(propName)] and
    [f.unsubscribe(event, listener)] with the result dropped: the same
    call on the same arguments, the same final world, the same
    exception if the facade throws, and nothing else. *)
Theorem methods_pass_through (w : World H) this f name itemType propName event listener :
  facade_is w this f ->
  indexedProperty env this name itemType w
    = pass_through env f "indexedProperty" [name; itemType] w
  /\ changed env this propName w
    = discard (pass_through env f "changed" [propName]) w
  /\ unsubscribe env this event listener w
    = discard (pass_through env f "unsubscribe" [event; listener]) w.
Proof.
  intros Hf. pose proof (get_facade env w this f Hf) as Hg.
  unfold indexedProperty, changed, unsubscribe, pass_through.
  repeat split.
  - rewrite (bind_ret_run _ _ _ _ _ _ Hg). simpl. by rewrite <- run_eq.
  - rewrite (bind_ret_run _ _ _ _ _ _ Hg). simpl.
    rewrite <- run_eq. apply bind_discard.
  - rewrite (bind_ret_run _ _ _ _ _ _ Hg). simpl.
    rewrite <- run_eq. apply bind_discard.
Qed.
End PassThrough.

Lemma methods_pass_through_witness :
  let w := Examples.started Examples.facade in
  let f := VRef Examples.facade in
  indexedProperty Examples.panel_env Examples.this (VStr "items") VUndef w
    = pass_through Examples.panel_env f "indexedProperty" [VStr "items"; VUndef] w
  /\ changed Examples.panel_env Examples.this (VStr "level") w
    = discard (pass_through Examples.panel_env f "changed" [VStr "level"]) w
  /\ unsubscribe Examples.panel_env Examples.this (VStr "finish") VNull w
    = discard (pass_through Examples.panel_env f "unsubscribe" [VStr "finish"; VNull]) w.
Proof.
  apply (methods_pass_through Examples.panel_env
           (Examples.started Examples.facade) Examples.this (VRef Examples.facade)).
  vm_compute. reflexivity.
Defined.

Section Registration.
Context {H : Type} (env : HostEnv H).
Implicit Types (w : World H) (this : loc) (f v : Val).

Local Abbreviation no_define := (Forall (fun e => is_define e = false)).

(** A list without definitions has none at position [i]. *)
Ltac no_define_at Hnd Hi :=
  eapply Forall_lookup_1 in Hnd; [|exact Hi]; discriminate.

Lemma call_no_define f rcv args w : no_define (events (call env f rcv args w)).
Proof.
  unfold call, bind, emit, lift_host; simpl.
  destruct (call_fn env f rcv args w) as [o w']; simpl.
  by repeat constructor.
Qed.

Lemma get_prop_no_define v k w : no_define (events (get_prop env v k w)).
Proof.
  destruct v; simpl; try by constructor.
  unfold bind, get_world; simpl.
  destruct (heap w !! l) as [[ps ext|xs|]|]; simpl; try by constructor.
  destruct (ps !! k) as [[x ? ? ?|[g|] ? ? ?]|]; simpl; try by constructor.
  destruct g; simpl; rewrite ?app_nil_r.
  - exact (call_no_define gsFunc VUndef [] w).
  - exact (call_no_define f (VRef l) [] w).
Qed.

Lemma is_read_only_no_define options w :
  no_define (events (is_read_only env options w)).
Proof.
  unfold is_read_only. destruct (to_boolean options); [|by constructor].
  unfold bind. pose proof (get_prop_no_define options "readOnly" w) as Hg.
  destruct (get_prop env options "readOnly" w) as [ev w' [r| |]]; simpl in *;
    rewrite ?app_nil_r; done.
Qed.

(** The registration part never defines a property, and when it
    completes it has called the facade's [property]. *)
Lemma registration_events this name options gsFunc w :
  let r := registration env this name options gsFunc w in
  no_define (events r) /\
  (forall b, outcome r = Ret b ->
     exists f, EvMethod f "property" [VStr name; options; gsFunc] ∈ events r).
Proof.
  unfold registration, bind.
  pose proof (get_prop_no_define (VRef this) "__scriptFacade" w) as Hg.
  destruct (get_prop env (VRef this) "__scriptFacade" w) as [ev w1 [fc| |]];
    simpl in *; try (split; [done|discriminate]).
  destruct (not_nullish fc) eqn:Hfc.
  - rewrite (method_call_run env fc _ _ w1 Hfc). simpl.
    destruct (call_method env fc "property" _ w1) as [[x| |] w2]; simpl;
      try (split; [apply Forall_app; split; [done|by repeat constructor]
                  |discriminate]).
    pose proof (is_read_only_no_define options w2) as Hr.
    split.
    + apply Forall_app; split; [done|].
      constructor; [done|].
      by destruct (is_read_only env options w2) as [? ? [?| |]].
    + intros b _. exists fc. set_solver.
  - destruct fc; try discriminate; simpl; rewrite app_nil_r;
      (split; [done|discriminate]).
Qed.


(** A missing facade: with undefined or null in [__scriptFacade],
    [property] fails with the TypeError of line 10 and does nothing. *)
Lemma property_missing_facade w this name options gsFunc f :
  facade_is w this f ->
  not_nullish f = false ->
  property env this name options gsFunc w = MkRun [] w (Throw TypeError).
Proof.
  intros Hf Hn. unfold property.
  rewrite (bind_ret_run _ _ _ _ _ _ (get_facade env w this f Hf)).
  by destruct f.
Qed.

(** C8.  When the facade's [property] throws, [property] ends with that
    very exception, having made the facade call and nothing else: the
    world is the one the facade left behind, no property has been
    defined, and an instance the facade did not touch is as it was
    before the call. *)
Theorem property_propagates_facade_error w this name options gsFunc f ex w1 :
  facade_is w this f ->
  not_nullish f = true ->
  call_method env f "property" [VStr name; options; gsFunc] w = (Throw ex, w1) ->
  let r := property env this name options gsFunc w in
  r = MkRun [EvMethod f "property" [VStr name; options; gsFunc]] w1 (Throw ex)
  /\ (heap w1 !! this = heap w !! this ->
      forall k, own_prop (final r) this k = own_prop w this k).
Proof.
  intros Hf Hn Hc r.
  assert (r = MkRun [EvMethod f "property" [VStr name; options; gsFunc]] w1 (Throw ex))
    as Hr.
  { subst r. unfold property.
    rewrite (bind_ret_run _ _ _ _ _ _ (get_facade env w this f Hf)). simpl.
    unfold bind. rewrite (method_call_run env f _ _ w Hn), Hc. done. }
  split; [done|].
  intros Hsame k. rewrite Hr. unfold own_prop; simpl. by rewrite Hsame.
Qed.
End Registration.


Lemma property_propagates_facade_error_witness :
  let gs := VRef Examples.levelAccessor in
  let w := Examples.started Examples.strict_facade in
  let f := VRef Examples.strict_facade in
  let r := property Examples.panel_env Examples.this "level" VUndef gs w in
  r = MkRun [EvMethod f "property" [VStr "level"; VUndef; gs]] w
            (Throw (Thrown (VStr "refused")))
  /\ forall k, own_prop (final r) Examples.this k = own_prop w Examples.this k.
Proof.
  intros gs w f r.
  destruct (property_propagates_facade_error Examples.panel_env w Examples.this
              "level" VUndef gs f (Thrown (VStr "refused")) w)
    as [Hrun Hsame].
  - vm_compute. reflexivity.
  - reflexivity.
  - vm_compute. reflexivity.
  - split; [exact Hrun|]. apply Hsame. reflexivity.
Defined.

Section Accessors.
Context {H : Type} (env : HostEnv H).
Implicit Types (w : World H) (this : loc) (f v : Val).

(** The setter shim, when both calls of the accessor function return. *)
Lemma shim_set_run name gsFunc this v w old new wa wb f :
  call_fn env gsFunc VUndef [] w = (Ret old, wa) ->
  call_fn env gsFunc VUndef [v] wa = (Ret new, wb) ->
  facade_is wb this f ->
  not_nullish f = true ->
  let note := call_method env f "changed" [VStr name] wb in
  shim_set env name gsFunc (VRef this) v w =
  if strict_eq old new
  then MkRun [EvCall gsFunc []; EvCall gsFunc [v]] wb (Ret VUndef)
  else MkRun [EvCall gsFunc []; EvCall gsFunc [v];
              EvMethod f "changed" [VStr name]]
             note.2
             (match note.1 with
              | Ret _ => Ret VUndef
              | Throw e => Throw e
              | Unmodelled => Unmodelled
              end).
Proof.
  intros Hold Hnew Hf Hn note. unfold shim_set.
  rewrite (bind_ret_run _ _ _ _ _ _ (call_ret_run env _ _ _ _ _ _ Hold)).
  rewrite (bind_ret_run _ _ _ _ _ _ (call_ret_run env _ _ _ _ _ _ Hnew)).
  unfold strict_neq. destruct (strict_eq old new); simpl; [done|].
  rewrite (bind_ret_run _ _ _ _ _ _ (get_facade env wb this f Hf)).
  rewrite bind_then_ret, (method_call_run env f _ _ wb Hn). done.
Qed.

(** C1.  Let [property(name, options, gsFunc)] return from a
    registration that was not read-only.  Then the instance's property
    [name] carries the getter and the setter shim, and in any world
    where it still does, the assignment [this[name] = v] calls
    [gsFunc()], then [gsFunc(v)], and compares the two results with
    [!==] (the value [v] itself is not compared): when they differ it
    then calls [facade.changed(name)] on the facade in
    [__scriptFacade], and when they do not it does nothing more. *)
Theorem setter_notifies_iff_result_differs
    w0 this name options gsFunc pre w1 u :
  registration env this name options gsFunc w0 = MkRun pre w1 (Ret false) ->
  outcome (property env this name options gsFunc w0) = Ret u ->
  exists e c,
    let p := Accessor (Some (ShimGet gsFunc)) (Some (ShimSet name gsFunc)) e c in
    own_prop (final (property env this name options gsFunc w0)) this name = Some p
    /\
    forall w strict v old new wa wb f,
      own_prop w this name = Some p ->
      call_fn env gsFunc VUndef [] w = (Ret old, wa) ->
      call_fn env gsFunc VUndef [v] wa = (Ret new, wb) ->
      facade_is wb this f ->
      not_nullish f = true ->
      let r := set_prop env strict this name v w in
      let note := call_method env f "changed" [VStr name] wb in
      events r = [EvCall gsFunc []; EvCall gsFunc [v]] ++
                 (if strict_neq old new
                  then [EvMethod f "changed" [VStr name]] else [])
      /\ final r = (if strict_neq old new then note.2 else wb)
      /\ outcome r = (if strict_neq old new
                      then match note.1 with
                           | Ret _ => Ret tt
                           | Throw ex => Throw ex
                           | Unmodelled => Unmodelled
                           end
                      else Ret tt).
Proof.
  intros Hreg Hret. rewrite property_split in Hret |- *.
  rewrite (bind_ret_run _ _ _ _ _ _ Hreg), bind_then_ret in Hret |- *.
  rewrite define_property_run in Hret |- *. simpl in *.
  destruct (heap w1 !! this) as [[ps ext| |]|] eqn:Hh; simpl in *; try done.
  destruct (apply_desc (ps !! name) ext (getter_setter name gsFunc))
    as [p|] eqn:Hp; simpl in *; try done.
  assert (exists e c, p = Accessor (Some (ShimGet gsFunc))
                                   (Some (ShimSet name gsFunc)) e c)
    as (e & c & ->).
  { unfold apply_desc in Hp; simpl in Hp.
    destruct (ps !! name) as [[? ? ? cf|? ? ? cf]|]; [destruct cf..|destruct ext];
      simplify_eq; eauto. }
  exists e, c. split.
  { unfold own_prop; simpl. by rewrite !lookup_insert_eq. }
  intros w strict v old new wa wb f Hown Hold Hnew Hf Hn.
  apply own_prop_Some in Hown as (ps' & ext' & Hh' & Hk').
  unfold set_prop, bind at 1, get_world; simpl. rewrite Hh', Hk'. simpl.
  rewrite bind_then_ret. simpl.
  rewrite (shim_set_run name gsFunc this v w old new wa wb f Hold Hnew Hf Hn).
  unfold strict_neq. destruct (strict_eq old new); simpl; [done|].
  by destruct (call_method env f "changed" [VStr name] wb) as [[?| |] ?].
Qed.

End Accessors.

Lemma setter_notifies_iff_result_differs_witness :
  let gs := VRef Examples.levelAccessor in
  let w := Examples.with_level VUndef in
  let r := set_prop Examples.panel_env true Examples.this "level" (VNum (Int 250)) w in
  events r = [EvCall gs []; EvCall gs [VNum (Int 250)];
              EvMethod (VRef Examples.facade) "changed" [VStr "level"]]
  /\ Examples.notified (host (final r)) = [VStr "level"]
  /\ outcome r = Ret tt.
Proof.
  intros gs w r.
  pose (reg := registration Examples.panel_env Examples.this "level" VUndef gs
                 (Examples.started Examples.facade)).
  destruct (setter_notifies_iff_result_differs Examples.panel_env
              (Examples.started Examples.facade) Examples.this "level" VUndef gs
              (events reg) (final reg) VUndef)
    as (e & c & Hp & Hset).
  - vm_compute. reflexivity.
  - vm_compute. reflexivity.
  - destruct (Hset w true (VNum (Int 250)) (VNum (Int 10)) (VNum (Int 100)) w
                (call_fn Examples.panel_env gs VUndef [VNum (Int 250)] w).2
                (VRef Examples.facade))
      as (Hev & Hfin & Hout).
    + exact Hp.
    + vm_compute. reflexivity.
    + vm_compute. reflexivity.
    + vm_compute. reflexivity.
    + reflexivity.
    + split; [exact Hev|]. split; [|exact Hout].
      fold r in Hfin. rewrite Hfin. vm_compute. reflexivity.
Defined.

(** The comparison is with what [gsFunc(v)] returns, not with [v]: at
    level 100, assigning 250 is clamped back to 100 and notifies nobody. *)
Example setter_compares_result_not_input :
  let gs := VRef Examples.levelAccessor in
  let w := final (set_prop Examples.panel_env true Examples.this "level"
                    (VNum (Int 100)) (Examples.with_level VUndef)) in
  events (set_prop Examples.panel_env true Examples.this "level" (VNum (Int 250)) w)
  = [EvCall gs []; EvCall gs [VNum (Int 250)]].
Proof. vm_compute. reflexivity. Qed.


Section Arrays.
Context {H : Type} (env : HostEnv H).
Implicit Types (w : World H) (v : Val) (xs ys acc : list Val).

Lemma get_data_prop w l ps ext k x :
  heap w !! l = Some (OPlain ps ext) ->
  data_value (ps !! k) = Some x ->
  get_prop env (VRef l) k w = MkRun [] w (Ret x).
Proof.
  intros Hl Hk. unfold get_prop, bind, get_world; simpl. rewrite Hl.
  destruct (ps !! k) as [[y ? ? ?|]|]; simpl in *; try discriminate.
  by simplify_eq.
Qed.

Lemma array_push_run w result acc x :
  heap w !! result = Some (OArray acc) ->
  array_push result x w =
  MkRun [] (with_heap w (<[result := OArray (acc ++ [x])]> (heap w))) (Ret tt).
Proof.
  intros Hr. unfold array_push, bind, get_world; simpl. by rewrite Hr.
Qed.

(** The loop of lines 45-46 over an array-like object: [n] rounds from
    index [i] append the elements at [i], ..., [i + n - 1]. *)
Lemma push_from_run ys : forall i w l ps ext result acc,
  heap w !! l = Some (OPlain ps ext) ->
  heap w !! result = Some (OArray acc) ->
  l <> result ->
  (forall j y, ys !! j = Some y -> data_value (ps !! index_key (i + j)) = Some y) ->
  push_from env (length ys) i (VRef l) result w =
  MkRun [] (with_heap w (<[result := OArray (acc ++ ys)]> (heap w))) (Ret tt).
Proof.
  induction ys as [|y ys IH]; intros i w l ps ext result acc Hl Hr Hne Hys; simpl.
  - unfold ret, with_heap. rewrite app_nil_r, insert_id by done.
    by rewrite world_eta.
  - assert (Hy : data_value (ps !! index_key i) = Some y).
    { rewrite <- (Nat.add_0_r i). by apply Hys. }
    rewrite (bind_ret_run _ _ _ _ _ _ (get_data_prop w l ps ext _ y Hl Hy)).
    rewrite (bind_ret_run _ _ _ _ _ _ (array_push_run w result acc y Hr)).
    rewrite (IH (S i) _ l ps ext result (acc ++ [y])); simpl.
    + unfold with_heap; simpl.
      by rewrite insert_insert_eq, <- app_assoc.
    + by rewrite lookup_insert_ne.
    + by rewrite lookup_insert_eq.
    + done.
    + intros j y' Hj. specialize (Hys (S j) y' Hj). by rewrite Nat.add_succ_r in Hys.
Qed.

(** Line 41-42: an array comes back as it is, and nothing happens. *)
Lemma makeJSArray_array_run w v :
  is_array v w = true -> makeJSArray env v w = MkRun [] w (Ret v).
Proof.
  intros Ha. unfold makeJSArray, bind, get_world; simpl. by rewrite Ha.
Qed.

(** Lines 43-47 on an array-like object: one new array is allocated and
    filled. *)
Lemma makeJSArray_array_like_run w l ps ext xs :
  heap w !! l = Some (OPlain ps ext) ->
  array_like ps xs ->
  let result := fresh (dom (heap w)) in
  makeJSArray env (VRef l) w =
  MkRun [] (with_heap w (<[result := OArray xs]> (heap w))) (Ret (VRef result)).
Proof.
  intros Hl [Hlen Hidx] result.
  assert (Hfresh : heap w !! result = None).
  { apply not_elem_of_dom. apply is_fresh. }
  assert (Hne : l <> result) by (intros ->; congruence).
  assert (Hna : is_array (VRef l) w = false) by (simpl; by rewrite Hl).
  unfold makeJSArray.
  rewrite (bind_ret_run _ _ w [] w w eq_refl). cbv beta. rewrite Hna.
  rewrite (bind_ret_run _ _ w [] (with_heap w (<[result := OArray []]> (heap w)))
             result eq_refl).
  set (w1 := with_heap w (<[result := OArray []]> (heap w))).
  assert (Hl1 : heap w1 !! l = Some (OPlain ps ext))
    by (simpl; by rewrite lookup_insert_ne).
  rewrite (bind_ret_run _ _ _ _ _ _ (get_data_prop w1 l ps ext "length" _ Hl1 Hlen)).
  cbn [loop_bound]. rewrite Nat2Z.id, bind_then_ret.
  rewrite (push_from_run xs 0 w1 l ps ext result []); simpl.
  - unfold with_heap; simpl. by rewrite insert_insert_eq.
  - done.
  - by rewrite lookup_insert_eq.
  - done.
  - done.
Qed.

(** C2.  For an input that is an array or an array-like object with
    elements [xs], [makeJSArray] returns a reference to an array whose
    elements are [xs], in that order; it calls nothing on the way. *)
Theorem makeJSArray_same_elements w v xs :
  elements w v xs ->
  let r := makeJSArray env v w in
  exists a,
    outcome r = Ret (VRef a)
    /\ heap (final r) !! a = Some (OArray xs)
    /\ is_array (VRef a) (final r) = true
    /\ events r = [].
Proof.
  intros (l & -> & Hl) r. subst r.
  destruct (heap w !! l) as [[ps ext|ys|]|] eqn:Hh; try done.
  - rewrite (makeJSArray_array_like_run w l ps ext xs Hh Hl). simpl.
    exists (fresh (dom (heap w))). by rewrite lookup_insert_eq.
  - subst ys. rewrite makeJSArray_array_run by (simpl; by rewrite Hh).
    exists l. simpl. by rewrite Hh.
Qed.

(** C3.  An input that is already an array is returned as it is: the
    same reference, with no new array allocated and the world
    untouched.  Hence a second [makeJSArray] on the result of a first
    changes nothing: for an array or array-like input,
    [makeJSArray(makeJSArray(x))] is the run [makeJSArray(x)], with the
    same returned reference and the same final world. *)
Theorem makeJSArray_identity_on_arrays w v :
  (is_array v w = true -> makeJSArray env v w = MkRun [] w (Ret v))
  /\
  (forall xs, elements w v xs ->
     bind (makeJSArray env v) (makeJSArray env) w = makeJSArray env v w).
Proof.
  split; [apply makeJSArray_array_run|].
  intros xs (l & -> & Hl).
  destruct (heap w !! l) as [[ps ext|ys|]|] eqn:Hh; try done.
  - pose proof (makeJSArray_array_like_run w l ps ext xs Hh Hl) as Hrun.
    simpl in Hrun. rewrite (bind_ret_run _ _ _ _ _ _ Hrun), Hrun.
    rewrite makeJSArray_array_run; [done|].
    simpl. by rewrite lookup_insert_eq.
  - assert (Ha : is_array (VRef l) w = true) by (simpl; by rewrite Hh).
    rewrite (bind_ret_run _ _ _ _ _ _ (makeJSArray_array_run w _ Ha)).
    by rewrite makeJSArray_array_run.
Qed.
End Arrays.

Lemma three_elements : elements Examples.with_list (VRef 9%N) Examples.three.
Proof.
  exists 9%N. split; [done|]. vm_compute heap. split; [vm_compute; reflexivity|].
  intros [|[|[|i]]] x; simpl; intros [= <-]; vm_compute; reflexivity.
Qed.

Lemma makeJSArray_same_elements_witness :
  let r := makeJSArray Examples.panel_env (VRef 9%N) Examples.with_list in
  exists a,
    outcome r = Ret (VRef a)
    /\ heap (final r) !! a = Some (OArray Examples.three)
    /\ is_array (VRef a) (final r) = true
    /\ events r = [].
Proof.
  exact (makeJSArray_same_elements Examples.panel_env Examples.with_list
           (VRef 9%N) Examples.three three_elements).
Defined.

(** A string is array-like too: it comes back as the array of its
    characters. *)
Example makeJSArray_string :
  let r := makeJSArray Examples.panel_env (VStr "abc") Examples.boot in
  exists a, outcome r = Ret (VRef a)
            /\ heap (final r) !! a = Some (OArray [VStr "a"; VStr "b"; VStr "c"]).
Proof. eexists. split; vm_compute; reflexivity. Qed.

Lemma makeJSArray_identity_on_arrays_witness :
  let w := final (makeJSArray Examples.panel_env (VRef 9%N) Examples.with_list) in
  makeJSArray Examples.panel_env (VRef 10%N) w = MkRun [] w (Ret (VRef 10%N))
  /\ bind (makeJSArray Examples.panel_env (VRef 9%N))
          (makeJSArray Examples.panel_env) Examples.with_list
     = makeJSArray Examples.panel_env (VRef 9%N) Examples.with_list.
Proof.
  intros w. split.
  - apply (makeJSArray_identity_on_arrays Examples.panel_env w (VRef 10%N)).
    vm_compute. reflexivity.
  - apply (makeJSArray_identity_on_arrays Examples.panel_env Examples.with_list
             (VRef 9%N)) with (xs := Examples.three).
    exact three_elements.
Defined.
End ScriptBaseSpec.

(* ===================================================================== *)
(** ** Properties of the declarators                                      *)
(* ===================================================================== *)

Module DecoratorsSpec.
Import JS Decorators Contract JSFacts.

Section Metadata.
Context {H : Type}.
Implicit Types (w : World H) (t : loc).

Lemma defineMetadata_run key value t pk w :
  defineMetadata key value (VRef t) pk w =
  MkRun [] (with_meta w (<[(t, pk, key) := value]> (meta w))) (Ret VUndef).
Proof. reflexivity. Qed.

(** C7.  Applied to an object [t] and a property key, the decorators
    [min(n)] and [max(n)] return nothing and call nothing; they leave
    the world as it was except for one entry of the metadata store, the
    one for [t], the property key and ["pixi:min"] (["pixi:max"]), which
    now holds the number [n] as given. *)
Theorem min_max_write_one_entry w (n : Num) t propertyKey :
  let on_key k := (t, Some propertyKey, k) : MetaKey in
  (min n (VRef t) propertyKey w
     = MkRun [] (with_meta w (<[on_key "pixi:min" := VNum n]> (meta w))) (Ret VUndef)
   /\ getOwnMetadata (final (min n (VRef t) propertyKey w)) "pixi:min" t (Some propertyKey)
      = Some (VNum n)
   /\ delete (on_key "pixi:min") (meta (final (min n (VRef t) propertyKey w)))
      = delete (on_key "pixi:min") (meta w))
  /\
  (max n (VRef t) propertyKey w
     = MkRun [] (with_meta w (<[on_key "pixi:max" := VNum n]> (meta w))) (Ret VUndef)
   /\ getOwnMetadata (final (max n (VRef t) propertyKey w)) "pixi:max" t (Some propertyKey)
      = Some (VNum n)
   /\ delete (on_key "pixi:max") (meta (final (max n (VRef t) propertyKey w)))
      = delete (on_key "pixi:max") (meta w)).
Proof.
  intros on_key. unfold min, max, getOwnMetadata.
  rewrite !bind_then_ret, !defineMetadata_run. simpl.
  rewrite !lookup_insert_eq, !delete_insert_eq. done.
Qed.

(** C10.  [resource(roleRequired, verb)], applied to an object [t] and
    a property key, records under ["pixi:resource"] a new object with
    two fields: [auth], the role given or [''] when none is, and [verb],
    the verb given or ['POST'] when none is. *)
Theorem resource_defaults w (roleRequired : option RoleRequired)
    (verb : option ResourceVerb) t propertyKey :
  let r := resource roleRequired verb (VRef t) propertyKey w in
  exists info,
    outcome r = Ret VUndef
    /\ getOwnMetadata (final r) "pixi:resource" t (Some propertyKey) = Some (VRef info)
    /\ heap (final r) !! info =
       Some (OPlain {[ "auth" := own_field (match roleRequired with
                                            | Some x => role x
                                            | None => VStr ""
                                            end);
                       "verb" := own_field (match verb with
                                            | Some x => resource_verb x
                                            | None => VStr "POST"
                                            end) ]} true).
Proof.
  intros r. exists (fresh (dom (heap w))). subst r.
  unfold resource, resource_info, getOwnMetadata.
  rewrite (bind_ret_run _ _ w [] _ (fresh (dom (heap w))) eq_refl).
  rewrite defineMetadata_run. simpl.
  rewrite !lookup_insert_eq.
  split; [done|]. split; [done|].
  by destruct roleRequired as [[]|], verb as [[]|].
Qed.

(** C6.  [driver(baseDriverType, typeSpecificMeta)] returns a decorator
    and builds one info object: its [paramTypes] field is an array
    holding [baseDriverType] and nothing else, and its [info] field is
    [typeSpecificMeta] itself.  Applied to a class, in any world, the
    decorator records a reference to that object under ["pixi:driver"]
    for the class, and does nothing else. *)
Theorem driver_records_info w (baseDriverType : BaseDriverType) typeSpecificMeta :
  let r := driver baseDriverType typeSpecificMeta w in
  exists decorator info paramTypes,
    outcome r = Ret decorator
    /\ events r = []
    /\ heap (final r) !! info =
       Some (OPlain {[ "paramTypes" := own_field (VRef paramTypes);
                       "info" := own_field typeSpecificMeta ]} true)
    /\ heap (final r) !! paramTypes = Some (OArray [base_driver_type baseDriverType])
    /\ forall (w' : World H) (target : loc),
         decorator (VRef target) w' =
         MkRun [] (with_meta w' (<[(target, None, "pixi:driver") := VRef info]> (meta w')))
               (Ret VUndef).
Proof.
  intros r. subst r.
  set (info := fresh (dom (heap w))).
  set (h1 := <[info := OPlain ∅ true]> (heap w)).
  set (params := fresh (dom h1)).
  assert (Hne : params <> info).
  { intros Heq. apply (is_fresh (dom h1)). fold params. rewrite Heq.
    unfold h1. rewrite dom_insert_L. set_solver. }
  eexists _, info, params. unfold driver, driver_info.
  rewrite (bind_ret_run _ _ w []
             (with_heap w (<[info := OPlain {[ "paramTypes" := own_field (VRef params);
                                               "info" := own_field typeSpecificMeta ]} true]>
                             (<[params := OArray [base_driver_type baseDriverType]]> h1)))
             info eq_refl).
  simpl. split_and!; try reflexivity.
  - apply lookup_insert_eq.
  - rewrite lookup_insert_ne by done. apply lookup_insert_eq.
Qed.
End Metadata.
End DecoratorsSpec.

(* ===================================================================== *)
(** ** Further properties of the ScriptBase adapter                       *)
(* ===================================================================== *)

Module ScriptBaseMore.
Import JS ScriptBase Contract Reading JSFacts ScriptBaseSpec.

Section Keys.
Context {H : Type} (env : HostEnv H).

Lemma pretty_N_char_digit (x : N) : is_digit (pretty_N_char x) = true.
Proof. unfold pretty_N_char. by repeat case_match. Qed.

Lemma pretty_N_go_digit (x : N) : forall s,
  starts_with_digit s = true \/ (0 < x)%N ->
  starts_with_digit (pretty_N_go x s) = true.
Proof.
  induction (N.lt_wf_0 x) as [x _ IH]; intros s Hs.
  assert (x = 0 \/ 0 < x)%N as [->|Hx] by lia.
  - rewrite pretty_N_go_0. destruct Hs as [Hs|Hs]; [done|lia].
  - rewrite pretty_N_go_step by done. apply IH.
    + by apply N.div_lt.
    + left. simpl. apply pretty_N_char_digit.
Qed.

(** The key of an index is a numeral: it begins with a digit. *)
Lemma index_key_digit (i : nat) : starts_with_digit (index_key i) = true.
Proof.
  unfold index_key, pretty, pretty_nat, pretty, pretty_N.
  case_decide; [done|]. apply pretty_N_go_digit. right. lia.
Qed.

Lemma key_index_not_numeral (n : nat) (k : string) :
  starts_with_digit k = false -> key_index n k = None.
Proof.
  intros Hk. unfold key_index.
  destruct (List.find _ (seq 0 n)) as [j|] eqn:Hfind; [|done].
  apply find_some in Hfind as [_ Hj]. apply bool_decide_eq_true in Hj.
  subst k. by rewrite index_key_digit in Hk.
Qed.

Lemma key_index_of_index (n i : nat) :
  i < n -> key_index n (index_key i) = Some i.
Proof.
  intros Hi. unfold key_index.
  destruct (List.find _ (seq 0 n)) as [j|] eqn:Hfind.
  - apply find_some in Hfind as [_ Hj]. apply bool_decide_eq_true in Hj.
    f_equal. by apply (inj index_key).
  - exfalso. eapply find_none in Hfind; [|apply in_seq; split; [lia|exact Hi]].
    by apply bool_decide_eq_false in Hfind.
Qed.
End Keys.

Section Registered.
Context {H : Type} (env : HostEnv H).
Implicit Types (w : World H) (this : loc) (f v : Val).

Lemma apply_desc_getter cur ext d p :
  apply_desc cur ext d = Some p ->
  exists s e c, p = Accessor (Some (d_get d)) s e c.
Proof.
  unfold apply_desc.
  destruct cur as [[? ? ? cf|? ? ? cf]|]; [destruct cf..|destruct ext];
    intros; simplify_eq; eauto.
Qed.

Lemma apply_desc_rejects cur ext d :
  match cur with
  | Some p => non_configurable p = true
  | None => ext = false
  end ->
  apply_desc cur ext d = None.
Proof.
  unfold apply_desc, non_configurable.
  destruct cur as [[? ? ? cf|? ? ? cf]|]; [destruct cf..|destruct ext]; done.
Qed.

(** What [property] does once its registration part has returned. *)
Lemma property_after_registration this name options gsFunc w0 pre w1 ro :
  registration env this name options gsFunc w0 = MkRun pre w1 (Ret ro) ->
  let d := if ro then getter_only gsFunc else getter_setter name gsFunc in
  property env this name options gsFunc w0 =
  match heap w1 !! this with
  | Some (OPlain ps ext) =>
      match apply_desc (ps !! name) ext d with
      | Some p =>
          MkRun (pre ++ [EvDefine this name d])
                (with_heap w1 (<[this := OPlain (<[name := p]> ps) ext]> (heap w1)))
                (Ret VUndef)
      | None => MkRun (pre ++ [EvDefine this name d]) w1 (Throw TypeError)
      end
  | _ => MkRun (pre ++ [EvDefine this name d]) w1 Unmodelled
  end.
Proof.
  intros Hreg d. rewrite property_split.
  rewrite (bind_ret_run _ _ _ _ _ _ Hreg), bind_then_ret, define_property_run.
  fold d. destruct (heap w1 !! this) as [[ps ext| |]|]; try done.
  by destruct (apply_desc (ps !! name) ext d).
Qed.

(** A run of [property] that returns leaves the getter shim in the
    property. *)
Lemma property_leaves_getter this name options gsFunc w0 u :
  outcome (property env this name options gsFunc w0) = Ret u ->
  exists s e c,
    own_prop (final (property env this name options gsFunc w0)) this name
    = Some (Accessor (Some (ShimGet gsFunc)) s e c).
Proof.
  intros Hret.
  destruct (registration env this name options gsFunc w0)
    as [pre w1 [ro| |]] eqn:Hreg.
  - rewrite (property_after_registration _ _ _ _ _ _ _ _ Hreg) in Hret |- *.
    destruct (heap w1 !! this) as [[ps ext| |]|]; try done.
    destruct (apply_desc (ps !! name) ext _) as [p|] eqn:Hp; try done.
    apply apply_desc_getter in Hp as (s & e & c & ->).
    exists s, e, c. unfold own_prop; simpl. rewrite !lookup_insert_eq.
    by destruct ro.
  - rewrite property_split, (bind_throw_run _ _ _ _ _ _ Hreg) in Hret. done.
  - rewrite property_split, (bind_unmodelled_run _ _ _ _ _ Hreg) in Hret. done.
Qed.

(** X1.  Reading a property that [property(name, options, gsFunc)] has
    registered, read-only or not, is one call [gsFunc()] with no
    argument: the read returns what the call returns, throws what it
    throws and leaves the world as the call leaves it; the facade is not
    involved. *)
Theorem registered_property_reads_through w0 this name options gsFunc u :
  outcome (property env this name options gsFunc w0) = Ret u ->
  forall w,
    own_prop w this name
      = own_prop (final (property env this name options gsFunc w0)) this name ->
    get_prop env (VRef this) name w = call env gsFunc VUndef [] w.
Proof.
  intros Hret w Hown.
  destruct (property_leaves_getter _ _ _ _ _ _ Hret) as (s & e & c & Hp).
  rewrite Hp in Hown. apply own_prop_Some in Hown as (ps & ext & Hh & Hk).
  unfold get_prop. rewrite (bind_ret_run _ _ w [] w w eq_refl). cbv beta.
  rewrite Hh, Hk. cbn [run_getter app]. unfold shim_get. by rewrite <- run_eq.
Qed.

(** X2.  When the accessor function throws inside the setter, at the
    read [gsFunc()] or at the write [gsFunc(v)], the assignment ends
    with that exception in the world the failing call left, and the
    facade is told nothing. *)
Theorem setter_propagates_accessor_error w this name gsFunc g e c strict v ex w' :
  own_prop w this name = Some (Accessor g (Some (ShimSet name gsFunc)) e c) ->
  (call_fn env gsFunc VUndef [] w = (Throw ex, w')
   \/ exists old wa, call_fn env gsFunc VUndef [] w = (Ret old, wa)
                     /\ call_fn env gsFunc VUndef [v] wa = (Throw ex, w')) ->
  let r := set_prop env strict this name v w in
  outcome r = Throw ex
  /\ final r = w'
  /\ forall recv m args, EvMethod recv m args ∉ events r.
Proof.
  intros Hown Hcalls r. subst r.
  apply own_prop_Some in Hown as (ps & ext & Hh & Hk).
  unfold set_prop. rewrite (bind_ret_run _ _ w [] w w eq_refl). cbv beta.
  rewrite Hh, Hk. simpl. rewrite bind_then_ret. unfold shim_set.
  destruct Hcalls as [Hread|(old & wa & Hread & Hwrite)].
  - assert (Hc : call env gsFunc VUndef [] w = MkRun [EvCall gsFunc []] w' (Throw ex))
      by (by rewrite call_run, Hread).
    rewrite (bind_throw_run _ _ _ _ _ _ Hc). simpl.
    split_and!; try done. intros recv m args Hin.
    repeat (apply elem_of_cons in Hin as [Hin|Hin]; [discriminate|]).
    by apply elem_of_nil in Hin.
  - assert (Hc : call env gsFunc VUndef [v] wa
                 = MkRun [EvCall gsFunc [v]] w' (Throw ex))
      by (by rewrite call_run, Hwrite).
    rewrite (bind_ret_run _ _ _ _ _ _ (call_ret_run env _ _ _ _ _ _ Hread)).
    rewrite (bind_throw_run _ _ _ _ _ _ Hc). simpl.
    split_and!; try done. intros recv m args Hin.
    repeat (apply elem_of_cons in Hin as [Hin|Hin]; [discriminate|]).
    by apply elem_of_nil in Hin.
Qed.

(** X3.  When the two results differ but the instance has no facade
    (the [__scriptFacade] field is absent, undefined or null), the
    assignment ends with a TypeError after [gsFunc(v)] has run: the world
    is the one the write left. *)
Theorem setter_without_facade w this name gsFunc g e c strict v old new wa wb ps ext f :
  own_prop w this name = Some (Accessor g (Some (ShimSet name gsFunc)) e c) ->
  call_fn env gsFunc VUndef [] w = (Ret old, wa) ->
  call_fn env gsFunc VUndef [v] wa = (Ret new, wb) ->
  strict_neq old new = true ->
  heap wb !! this = Some (OPlain ps ext) ->
  read_plain ps "__scriptFacade" = Some f ->
  not_nullish f = false ->
  set_prop env strict this name v w
  = MkRun [EvCall gsFunc []; EvCall gsFunc [v]] wb (Throw TypeError).
Proof.
  intros Hown Hread Hwrite Hneq Hh' Hf Hn.
  apply own_prop_Some in Hown as (ps0 & ext0 & Hh & Hk).
  unfold set_prop. rewrite (bind_ret_run _ _ w [] w w eq_refl). cbv beta.
  rewrite Hh, Hk. simpl. rewrite bind_then_ret. unfold shim_set.
  rewrite (bind_ret_run _ _ _ _ _ _ (call_ret_run env _ _ _ _ _ _ Hread)).
  rewrite (bind_ret_run _ _ _ _ _ _ (call_ret_run env _ _ _ _ _ _ Hwrite)).
  rewrite Hneq.
  assert (Hg : get_prop env (VRef this) "__scriptFacade" wb = MkRun [] wb (Ret f)).
  { unfold get_prop. rewrite (bind_ret_run _ _ wb [] wb wb eq_refl). cbv beta.
    rewrite Hh'. unfold read_plain in Hf.
    destruct (ps !! "__scriptFacade") as [[x ? ? ?|[?|] ? ? ?]|];
      simplify_eq; done. }
  rewrite (bind_ret_run _ _ _ _ _ _ Hg).
  by destruct f.
Qed.

(** X4.  When the instance already owns a non-configurable property of
    that name, or owns none and is not extensible, [property] fails with
    a TypeError at [Object.defineProperty], after the facade has been
    called: the world is the one the registration part left, and the
    instance has no new property. *)
Theorem property_definition_rejected this name options gsFunc w0 pre w1 ro ps ext :
  registration env this name options gsFunc w0 = MkRun pre w1 (Ret ro) ->
  heap w1 !! this = Some (OPlain ps ext) ->
  match ps !! name with
  | Some p => non_configurable p = true
  | None => ext = false
  end ->
  property env this name options gsFunc w0
  = MkRun (pre ++ [EvDefine this name
                     (if ro then getter_only gsFunc else getter_setter name gsFunc)])
          w1 (Throw TypeError).
Proof.
  intros Hreg Hh Hrej.
  rewrite (property_after_registration _ _ _ _ _ _ _ _ Hreg), Hh.
  by rewrite (apply_desc_rejects _ _ _ Hrej).
Qed.

(** X5.  Registered on an extensible instance that owns no property of
    that name, the property becomes a non-enumerable, non-configurable
    accessor: the getter shim, and the setter shim unless the
    registration is read-only.  Registering the same name again, with
    whatever options and accessor function, then fails with a
    TypeError. *)
Theorem property_on_fresh_name this name options gsFunc w0 pre w1 ro ps :
  registration env this name options gsFunc w0 = MkRun pre w1 (Ret ro) ->
  heap w1 !! this = Some (OPlain ps true) ->
  ps !! name = None ->
  let d := if ro then getter_only gsFunc else getter_setter name gsFunc in
  let p := Accessor (Some (ShimGet gsFunc))
                    (if ro then None else Some (ShimSet name gsFunc)) false false in
  property env this name options gsFunc w0
  = MkRun (pre ++ [EvDefine this name d])
          (with_heap w1 (<[this := OPlain (<[name := p]> ps) true]> (heap w1)))
          (Ret VUndef)
  /\
  forall options' gsFunc' w0' pre' w1' ro',
    registration env this name options' gsFunc' w0' = MkRun pre' w1' (Ret ro') ->
    own_prop w1' this name = Some p ->
    outcome (property env this name options' gsFunc' w0') = Throw TypeError.
Proof.
  intros Hreg Hh Hfresh d p. split.
  - rewrite (property_after_registration _ _ _ _ _ _ _ _ Hreg), Hh, Hfresh.
    simpl. subst d p. by destruct ro.
  - intros options' gsFunc' w0' pre' w1' ro' Hreg' Hown.
    apply own_prop_Some in Hown as (ps' & ext' & Hh' & Hk').
    rewrite (property_after_registration _ _ _ _ _ _ _ _ Hreg'), Hh', Hk'.
    done.
Qed.

(** X6.  A read-only registration over a configurable accessor that has
    a setter succeeds and keeps that setter: the descriptor of lines
    12-16 has no [set] field, so only the getter is replaced, and an
    assignment to the property still runs the old setter. *)
Theorem read_only_keeps_earlier_setter this name options gsFunc w0 pre w1 g0 s0 e :
  registration env this name options gsFunc w0 = MkRun pre w1 (Ret true) ->
  own_prop w1 this name = Some (Accessor g0 (Some s0) e true) ->
  let r := property env this name options gsFunc w0 in
  let p := Accessor (Some (ShimGet gsFunc)) (Some s0) e true in
  outcome r = Ret VUndef
  /\ own_prop (final r) this name = Some p
  /\ forall w strict v,
       own_prop w this name = Some p ->
       set_prop env strict this name v w
       = bind (run_setter env s0 (VRef this) v) (fun _ => ret tt) w.
Proof.
  intros Hreg Hown r p. subst r.
  apply own_prop_Some in Hown as (ps & ext & Hh & Hk).
  rewrite (property_after_registration _ _ _ _ _ _ _ _ Hreg), Hh, Hk. simpl.
  split_and!; try done.
  - unfold own_prop; simpl. by rewrite !lookup_insert_eq.
  - intros w strict v Hown.
    apply own_prop_Some in Hown as (ps' & ext' & Hh' & Hk').
    unfold set_prop. rewrite (bind_ret_run _ _ w [] w w eq_refl). cbv beta.
    rewrite Hh', Hk'. cbn [app]. by rewrite <- run_eq.
Qed.
End Registered.

Lemma registered_property_reads_through_witness :
  let w := AccessorExamples.registered AccessorExamples.facade VUndef in
  get_prop AccessorExamples.store_env (VRef AccessorExamples.this) "level" w
  = call AccessorExamples.store_env AccessorExamples.checked VUndef [] w.
Proof.
  intros w.
  apply (registered_property_reads_through AccessorExamples.store_env
           (AccessorExamples.started AccessorExamples.facade) AccessorExamples.this
           "level" VUndef AccessorExamples.checked VUndef).
  - vm_compute. reflexivity.
  - reflexivity.
Defined.

Lemma setter_propagates_accessor_error_witness :
  let w := AccessorExamples.registered AccessorExamples.facade VUndef in
  let r := set_prop AccessorExamples.store_env true AccessorExamples.this "level"
             (VStr "high") w in
  outcome r = Throw (Thrown (VStr "not a number"))
  /\ final r = w
  /\ forall recv m args, EvMethod recv m args ∉ events r.
Proof.
  intros w.
  apply (setter_propagates_accessor_error AccessorExamples.store_env w
           AccessorExamples.this "level" AccessorExamples.checked
           (Some (ShimGet AccessorExamples.checked)) false false true (VStr "high")
           (Thrown (VStr "not a number")) w).
  - vm_compute. reflexivity.
  - right. exists (VNum (Int 0)), w. split; vm_compute; reflexivity.
Defined.

Lemma setter_without_facade_witness :
  let w := final (set_prop AccessorExamples.store_env true AccessorExamples.this
                    "__scriptFacade" VNull
                    (AccessorExamples.registered AccessorExamples.facade VUndef)) in
  let gs := AccessorExamples.checked in
  exists wb,
    set_prop AccessorExamples.store_env true AccessorExamples.this "level"
             (VNum (Int 7)) w
    = MkRun [EvCall gs []; EvCall gs [VNum (Int 7)]] wb (Throw TypeError)
    /\ host wb = 7%Z.
Proof.
  intros w gs.
  pose (wb := (call_fn AccessorExamples.store_env gs VUndef [VNum (Int 7)] w).2).
  exists wb. split; [|vm_compute; reflexivity].
  apply (setter_without_facade AccessorExamples.store_env w AccessorExamples.this
           "level" gs (Some (ShimGet gs)) false false true (VNum (Int 7))
           (VNum (Int 0)) (VNum (Int 7)) w wb
           (match heap wb !! AccessorExamples.this with
            | Some (OPlain ps _) => ps
            | _ => ∅
            end) true VNull);
    vm_compute; reflexivity.
Defined.

Lemma property_definition_rejected_witness :
  let w0 := AccessorExamples.registered AccessorExamples.facade VUndef in
  let gs := AccessorExamples.checked in
  let r := property AccessorExamples.store_env AccessorExamples.this "level" VUndef gs w0 in
  outcome r = Throw TypeError
  /\ events r = [EvMethod AccessorExamples.facade "property" [VStr "level"; VUndef; gs];
                 EvDefine AccessorExamples.this "level" (getter_setter "level" gs)]
  /\ final r = w0.
Proof.
  intros w0 gs r.
  pose (reg := registration AccessorExamples.store_env AccessorExamples.this "level"
                 VUndef gs w0).
  assert (Hrun : r = MkRun (events reg ++ [EvDefine AccessorExamples.this "level"
                                             (getter_setter "level" gs)])
                           (final reg) (Throw TypeError)).
  { apply (property_definition_rejected AccessorExamples.store_env
             AccessorExamples.this "level" VUndef gs w0 (events reg) (final reg) false
             (match heap (final reg) !! AccessorExamples.this with
              | Some (OPlain ps _) => ps
              | _ => ∅
              end) true);
      vm_compute; reflexivity. }
  rewrite Hrun. split_and!; vm_compute; reflexivity.
Defined.

Lemma property_on_fresh_name_witness :
  let w0 := AccessorExamples.started AccessorExamples.facade in
  let gs := AccessorExamples.checked in
  own_prop (final (property AccessorExamples.store_env AccessorExamples.this "level"
                     VUndef gs w0)) AccessorExamples.this "level"
  = Some (Accessor (Some (ShimGet gs)) (Some (ShimSet "level" gs)) false false)
  /\ outcome (property AccessorExamples.store_env AccessorExamples.this "level"
                AccessorExamples.read_only_options gs
                (AccessorExamples.registered AccessorExamples.facade VUndef))
     = Throw TypeError.
Proof.
  intros w0 gs.
  pose (reg := registration AccessorExamples.store_env AccessorExamples.this "level"
                 VUndef gs w0).
  destruct (property_on_fresh_name AccessorExamples.store_env AccessorExamples.this
              "level" VUndef gs w0 (events reg) (final reg) false
              {[ "__scriptFacade" := Data AccessorExamples.facade true true true ]})
    as [Hrun Hagain].
  - vm_compute. reflexivity.
  - vm_compute. reflexivity.
  - vm_compute. reflexivity.
  - split.
    + rewrite Hrun. vm_compute. reflexivity.
    + pose (reg' := registration AccessorExamples.store_env AccessorExamples.this
                      "level" AccessorExamples.read_only_options gs
                      (AccessorExamples.registered AccessorExamples.facade VUndef)).
      apply (Hagain AccessorExamples.read_only_options gs
               (AccessorExamples.registered AccessorExamples.facade VUndef)
               (events reg') (final reg') true);
        vm_compute; reflexivity.
Defined.

Lemma read_only_keeps_earlier_setter_witness :
  let gs := AccessorExamples.checked in
  let env := AccessorExamples.store_env in
  let this := AccessorExamples.this in
  let w0 := final (property env this "level" VUndef gs AccessorExamples.with_field) in
  let r := property env this "level" AccessorExamples.read_only_options gs w0 in
  outcome r = Ret VUndef
  /\ events (set_prop env true this "level" (VNum (Int 9)) (final r))
     = [EvCall gs []; EvCall gs [VNum (Int 9)];
        EvMethod AccessorExamples.facade "changed" [VStr "level"]].
Proof.
  intros gs env this w0 r.
  pose (reg := registration env this "level" AccessorExamples.read_only_options gs w0).
  destruct (read_only_keeps_earlier_setter env this "level"
              AccessorExamples.read_only_options gs w0 (events reg) (final reg)
              (Some (ShimGet gs)) (ShimSet "level" gs) true)
    as (Hout & Hown & Hset).
  - vm_compute. reflexivity.
  - vm_compute. reflexivity.
  - split; [exact Hout|].
    rewrite (Hset (final r) true (VNum (Int 9)) Hown).
    vm_compute. reflexivity.
Defined.

Section Options.
Context {H : Type} (env : HostEnv H).
Implicit Types (w : World H) (this : loc) (f v : Val).

Lemma string_prop_other_key (s k : string) :
  k <> "length" -> starts_with_digit k = false -> string_prop s k = VUndef.
Proof.
  intros Hk Hd. unfold string_prop.
  rewrite bool_decide_eq_false_2 by done.
  by rewrite key_index_not_numeral.
Qed.

(** The test of line 11 on an [options] that is no object. *)
Lemma is_read_only_primitive options w :
  (forall l, options <> VRef l) ->
  is_read_only env options w = MkRun [] w (Ret false).
Proof.
  intros Hprim. unfold is_read_only.
  destruct options as [| |[|]|[|z]|s|l]; simpl; try done.
  - by destruct (negb (z =? 0)%Z).
  - destruct (negb (bool_decide (s = ""))); [|done].
    unfold bind; simpl. by rewrite string_prop_other_key.
  - by destruct (Hprim l).
Qed.

(** The test of line 11 on an ordinary object whose [readOnly] needs no
    getter. *)
Lemma is_read_only_object o ps ext x w :
  heap w !! o = Some (OPlain ps ext) ->
  read_plain ps "readOnly" = Some x ->
  is_read_only env (VRef o) w = MkRun [] w (Ret (to_boolean x)).
Proof.
  intros Hh Hx. unfold is_read_only; simpl.
  assert (Hg : get_prop env (VRef o) "readOnly" w = MkRun [] w (Ret x)).
  { unfold get_prop. rewrite (bind_ret_run _ _ w [] w w eq_refl). cbv beta.
    rewrite Hh. unfold read_plain in Hx.
    destruct (ps !! "readOnly") as [[y ? ? ?|[?|] ? ? ?]|]; simplify_eq; done. }
  by rewrite (bind_ret_run _ _ _ _ _ _ Hg).
Qed.

(** X7.  Once the facade has accepted the registration, [options]
    decides as follows.  An [options] that is no object (omitted, null, a
    boolean, a number, a string) gives a registration that is not
    read-only, and is never asked for its [readOnly]: null and undefined
    do not fail.  An ordinary object gives a read-only registration
    exactly when its [readOnly] property is truthy; an absent [readOnly]
    counts as false. *)
Theorem options_decide_read_only w this name options gsFunc f x w1 :
  facade_is w this f ->
  not_nullish f = true ->
  call_method env f "property" [VStr name; options; gsFunc] w = (Ret x, w1) ->
  let told := [EvMethod f "property" [VStr name; options; gsFunc]] in
  ((forall l, options <> VRef l) ->
   registration env this name options gsFunc w = MkRun told w1 (Ret false))
  /\
  (forall o ps ext r,
     options = VRef o ->
     heap w1 !! o = Some (OPlain ps ext) ->
     read_plain ps "readOnly" = Some r ->
     registration env this name options gsFunc w = MkRun told w1 (Ret (to_boolean r))).
Proof.
  intros Hf Hn Hcall told.
  assert (Hm : method_call env f "property" [VStr name; options; gsFunc] w
               = MkRun told w1 (Ret x))
    by (by rewrite (method_call_run env f _ _ w Hn), Hcall).
  assert (Hstart : registration env this name options gsFunc w
                   = MkRun (told ++ events (is_read_only env options w1))
                           (final (is_read_only env options w1))
                           (outcome (is_read_only env options w1))).
  { unfold registration.
    rewrite (bind_ret_run _ _ _ _ _ _ (get_facade env w this f Hf)).
    by rewrite (bind_ret_run _ _ _ _ _ _ Hm). }
  split.
  - intros Hprim. by rewrite Hstart, (is_read_only_primitive options w1 Hprim).
  - intros o ps ext r -> Hh Hr.
    by rewrite Hstart, (is_read_only_object o ps ext r w1 Hh Hr).
Qed.
End Options.

Lemma options_decide_read_only_witness :
  let env := AccessorExamples.store_env in
  let this := AccessorExamples.this in
  let gs := AccessorExamples.checked in
  let w := AccessorExamples.started AccessorExamples.facade in
  registration env this "level" VNull gs w
  = MkRun [EvMethod AccessorExamples.facade "property" [VStr "level"; VNull; gs]] w
          (Ret false)
  /\ registration env this "level" AccessorExamples.read_only_options gs w
  = MkRun [EvMethod AccessorExamples.facade "property"
             [VStr "level"; AccessorExamples.read_only_options; gs]] w
          (Ret true).
Proof.
  intros env this gs w. split.
  - destruct (options_decide_read_only env w this "level" VNull gs
                AccessorExamples.facade VUndef w) as [Hprim _];
      [vm_compute; reflexivity..|].
    apply Hprim. discriminate.
  - destruct (options_decide_read_only env w this "level"
                AccessorExamples.read_only_options gs
                AccessorExamples.facade VUndef w) as [_ Hobj];
      [vm_compute; reflexivity..|].
    apply (Hobj 6%N {[ "readOnly" := Data (VBool true) true true true ]} true
             (VBool true)); vm_compute; reflexivity.
Defined.

Section Constructor.
Context {H : Type} (env : HostEnv H).
Implicit Types (w : World H) (f : Val).

Lemma new_ScriptBase_run w f :
  let this := fresh (dom (heap w)) in
  new_ScriptBase env f w
  = MkRun [] (with_heap w (<[this := OPlain {[ "__scriptFacade" := Data f true true true ]}
                                            true]> (heap w)))
          (Ret this).
Proof.
  intros this. unfold new_ScriptBase.
  rewrite (bind_ret_run _ _ w []
             (with_heap w (<[this := OPlain ∅ true]> (heap w))) this eq_refl).
  rewrite bind_then_ret. unfold set_prop.
  rewrite (bind_ret_run _ _ _ [] _ _ eq_refl). cbv beta. simpl.
  rewrite lookup_insert_eq, lookup_empty. simpl.
  by rewrite insert_insert_eq, insert_empty.
Qed.

(** X8.  [new ScriptBase(f)] calls nothing and changes no existing
    object: it adds one new object.  On that object the forwarding
    methods reach the very [f] the constructor was given:
    [indexedProperty] is [f.indexedProperty] and [changed] is
    [f.changed] with the result dropped. *)
Theorem constructed_instance_forwards w f name itemType propName :
  let r0 := new_ScriptBase env f w in
  exists this,
    outcome r0 = Ret this
    /\ events r0 = []
    /\ heap w !! this = None
    /\ heap w ⊆ heap (final r0)
    /\ meta (final r0) = meta w
    /\ host (final r0) = host w
    /\ indexedProperty env this name itemType (final r0)
       = method_call env f "indexedProperty" [name; itemType] (final r0)
    /\ changed env this propName (final r0)
       = discard (method_call env f "changed" [propName]) (final r0).
Proof.
  intros r0. subst r0. rewrite new_ScriptBase_run. simpl.
  set (this := fresh (dom (heap w))).
  assert (Hfresh : heap w !! this = None) by (apply not_elem_of_dom, is_fresh).
  exists this. split_and!; try done.
  - by apply insert_subseteq.
  - unfold indexedProperty.
    erewrite bind_ret_run.
    2:{ apply get_facade. unfold facade_is, own_prop; simpl.
        by rewrite lookup_insert_eq, lookup_singleton_eq. }
    simpl. by rewrite <- run_eq.
  - unfold changed.
    erewrite bind_ret_run.
    2:{ apply get_facade. unfold facade_is, own_prop; simpl.
        by rewrite lookup_insert_eq, lookup_singleton_eq. }
    simpl. rewrite <- run_eq. apply bind_discard.
Qed.
End Constructor.

Section MoreArrays.
Context {H : Type} (env : HostEnv H).
Implicit Types (w : World H) (v : Val) (xs ys acc : list Val).

(** The start of [makeJSArray] on anything that is no array: the empty
    [result] is allocated, then [arr.length] is read. *)
Lemma makeJSArray_start w v :
  is_array v w = false ->
  let result := fresh (dom (heap w)) in
  let w1 := with_heap w (<[result := OArray []]> (heap w)) in
  makeJSArray env v w =
  bind (get_prop env v "length")
       (fun length =>
          match loop_bound env length with
          | Some n => do push_from env n 0 v result then ret (VRef result)
          | None => unmodelled
          end) w1.
Proof.
  intros Hna result w1. unfold makeJSArray.
  rewrite (bind_ret_run _ _ w [] w w eq_refl). cbv beta. rewrite Hna.
  cbv iota.
  rewrite (bind_ret_run (alloc (OArray [])) _ w [] w1 result eq_refl).
  cbn [app events final outcome]. by rewrite <- run_eq.
Qed.

(** X9.  [makeJSArray] of undefined or null fails with a TypeError (at
    [arr.length], with [result] already allocated); of a boolean or a
    number it returns a new empty array. *)
Theorem makeJSArray_primitives w :
  let a := fresh (dom (heap w)) in
  let w1 := with_heap w (<[a := OArray []]> (heap w)) in
  makeJSArray env VUndef w = MkRun [] w1 (Throw TypeError)
  /\ makeJSArray env VNull w = MkRun [] w1 (Throw TypeError)
  /\ (forall b, makeJSArray env (VBool b) w = MkRun [] w1 (Ret (VRef a)))
  /\ (forall n, makeJSArray env (VNum n) w = MkRun [] w1 (Ret (VRef a))).
Proof.
  intros a w1. split_and!; intros; by rewrite makeJSArray_start.
Qed.

Lemma characters_length s : length (characters s) = String.length s.
Proof. induction s; simpl; congruence. Qed.

Lemma characters_lookup s : forall i,
  characters s !! i = (fun c => VStr (String c EmptyString)) <$> String.get i s.
Proof. induction s as [|c s IH]; intros [|i]; simpl; auto. Qed.

Lemma string_prop_index s i y :
  characters s !! i = Some y -> string_prop s (index_key i) = y.
Proof.
  intros Hy. unfold string_prop.
  assert (Hi : i < String.length s).
  { rewrite <- characters_length. by eapply lookup_lt_Some. }
  rewrite bool_decide_eq_false_2.
  2:{ intros Hk. pose proof (index_key_digit i) as Hd. by rewrite Hk in Hd. }
  rewrite key_index_of_index by done.
  rewrite characters_lookup in Hy.
  destruct (String.get i s); by simplify_eq/=.
Qed.

(** The loop of lines 45-46 over a string. *)
Lemma push_from_string_run s ys : forall i w result acc,
  heap w !! result = Some (OArray acc) ->
  (forall j y, ys !! j = Some y -> characters s !! (i + j) = Some y) ->
  push_from env (length ys) i (VStr s) result w =
  MkRun [] (with_heap w (<[result := OArray (acc ++ ys)]> (heap w))) (Ret tt).
Proof.
  induction ys as [|y ys IH]; intros i w result acc Hr Hys; simpl.
  - unfold ret, with_heap. rewrite app_nil_r, insert_id by done.
    by rewrite world_eta.
  - assert (Hy : string_prop s (index_key i) = y).
    { apply string_prop_index. rewrite <- (Nat.add_0_r i). by apply Hys. }
    rewrite (bind_ret_run _ _ w [] w y) by (simpl; by rewrite Hy).
    rewrite (bind_ret_run _ _ _ _ _ _ (array_push_run w result acc y Hr)).
    rewrite (IH (S i) _ result (acc ++ [y])); simpl.
    + unfold with_heap; simpl. by rewrite insert_insert_eq, <- app_assoc.
    + by rewrite lookup_insert_eq.
    + intros j y' Hj. specialize (Hys (S j) y' Hj).
      by rewrite Nat.add_succ_r in Hys.
Qed.

(** X10.  A string is array-like: [makeJSArray] of a string returns a new
    array of its characters, each as a one-character string, in order
    (the empty array for the empty string). *)
Theorem makeJSArray_string_characters w (s : string) :
  let a := fresh (dom (heap w)) in
  makeJSArray env (VStr s) w
  = MkRun [] (with_heap w (<[a := OArray (characters s)]> (heap w))) (Ret (VRef a)).
Proof.
  intros a. rewrite makeJSArray_start by done. fold a.
  set (w1 := with_heap w (<[a := OArray []]> (heap w))).
  rewrite (bind_ret_run _ _ w1 [] w1 (VNum (Int (Z.of_nat (String.length s)))))
    by done.
  cbn [loop_bound]. rewrite Nat2Z.id, bind_then_ret, <- characters_length.
  rewrite (push_from_string_run s (characters s) 0 w1 a []); simpl.
  - unfold with_heap; simpl. by rewrite insert_insert_eq.
  - by rewrite lookup_insert_eq.
  - done.
Qed.

Lemma get_plain_prop w l ps ext k x :
  heap w !! l = Some (OPlain ps ext) ->
  read_plain ps k = Some x ->
  get_prop env (VRef l) k w = MkRun [] w (Ret x).
Proof.
  intros Hl Hk. unfold get_prop.
  rewrite (bind_ret_run _ _ w [] w w eq_refl). cbv beta. rewrite Hl.
  unfold read_plain in Hk.
  destruct (ps !! k) as [[y ? ? ?|[?|] ? ? ?]|]; simplify_eq; done.
Qed.

(** The loop of lines 45-46 over an ordinary object none of whose
    indices needs a getter. *)
Lemma push_from_plain_run ys : forall i w l ps ext result acc,
  heap w !! l = Some (OPlain ps ext) ->
  heap w !! result = Some (OArray acc) ->
  l <> result ->
  (forall j y, ys !! j = Some y -> read_plain ps (index_key (i + j)) = Some y) ->
  push_from env (length ys) i (VRef l) result w =
  MkRun [] (with_heap w (<[result := OArray (acc ++ ys)]> (heap w))) (Ret tt).
Proof.
  induction ys as [|y ys IH]; intros i w l ps ext result acc Hl Hr Hne Hys; simpl.
  - unfold ret, with_heap. rewrite app_nil_r, insert_id by done.
    by rewrite world_eta.
  - assert (Hy : read_plain ps (index_key i) = Some y).
    { rewrite <- (Nat.add_0_r i). by apply Hys. }
    rewrite (bind_ret_run _ _ _ _ _ _ (get_plain_prop w l ps ext _ y Hl Hy)).
    rewrite (bind_ret_run _ _ _ _ _ _ (array_push_run w result acc y Hr)).
    rewrite (IH (S i) _ l ps ext result (acc ++ [y])); simpl.
    + unfold with_heap; simpl. by rewrite insert_insert_eq, <- app_assoc.
    + by rewrite lookup_insert_ne.
    + by rewrite lookup_insert_eq.
    + done.
    + intros j y' Hj. specialize (Hys (S j) y' Hj).
      by rewrite Nat.add_succ_r in Hys.
Qed.

(** X11.  For an ordinary object whose [length] and indices need no
    getter, [makeJSArray] returns a new array with as many elements as
    there are indices below [length], undefined standing where the
    object has no such index; [length] is converted as [<] converts it
    (undefined, null and NaN to none, a string by the engine's parsing). *)
Theorem makeJSArray_fills_holes w l ps ext len ys :
  heap w !! l = Some (OPlain ps ext) ->
  read_plain ps "length" = Some len ->
  loop_bound env len = Some (length ys) ->
  (forall i y, ys !! i = Some y -> read_plain ps (index_key i) = Some y) ->
  let a := fresh (dom (heap w)) in
  makeJSArray env (VRef l) w
  = MkRun [] (with_heap w (<[a := OArray ys]> (heap w))) (Ret (VRef a)).
Proof.
  intros Hl Hlen Hn Hys a.
  assert (Hfresh : heap w !! a = None) by (apply not_elem_of_dom, is_fresh).
  assert (Hne : l <> a) by (intros ->; congruence).
  rewrite makeJSArray_start by (simpl; by rewrite Hl). fold a.
  set (w1 := with_heap w (<[a := OArray []]> (heap w))).
  assert (Hl1 : heap w1 !! l = Some (OPlain ps ext))
    by (simpl; by rewrite lookup_insert_ne).
  rewrite (bind_ret_run _ _ _ _ _ _ (get_plain_prop w1 l ps ext "length" len Hl1 Hlen)).
  rewrite Hn, bind_then_ret.
  rewrite (push_from_plain_run ys 0 w1 l ps ext a []); simpl.
  - unfold with_heap; simpl. by rewrite insert_insert_eq.
  - done.
  - by rewrite lookup_insert_eq.
  - done.
  - done.
Qed.

(** X12.  An ordinary object without a [length] property, whatever else
    it holds, comes back as a new empty array. *)
Theorem makeJSArray_without_length w l ps ext :
  heap w !! l = Some (OPlain ps ext) ->
  ps !! "length" = None ->
  let a := fresh (dom (heap w)) in
  makeJSArray env (VRef l) w
  = MkRun [] (with_heap w (<[a := OArray []]> (heap w))) (Ret (VRef a)).
Proof.
  intros Hl Hnone a.
  assert (Hfresh : heap w !! a = None) by (apply not_elem_of_dom, is_fresh).
  assert (Hne : l <> a) by (intros ->; congruence).
  rewrite makeJSArray_start by (simpl; by rewrite Hl). fold a.
  set (w1 := with_heap w (<[a := OArray []]> (heap w))).
  assert (Hl1 : heap w1 !! l = Some (OPlain ps ext))
    by (simpl; by rewrite lookup_insert_ne).
  assert (Hlen : read_plain ps "length" = Some VUndef)
    by (unfold read_plain; by rewrite Hnone).
  rewrite (bind_ret_run _ _ _ _ _ _
             (get_plain_prop w1 l ps ext "length" VUndef Hl1 Hlen)).
  reflexivity.
Qed.

(** X13.  On an array or array-like input [makeJSArray] changes no
    existing object, the input included, and leaves the metadata store
    and the host state alone; unless the input is an array, what it
    returns is an object that did not exist before, never the input. *)
Theorem makeJSArray_leaves_objects_alone w v xs :
  elements w v xs ->
  let r := makeJSArray env v w in
  heap w ⊆ heap (final r)
  /\ meta (final r) = meta w
  /\ host (final r) = host w
  /\ (is_array v w = false ->
      exists a, outcome r = Ret (VRef a) /\ heap w !! a = None /\ VRef a <> v).
Proof.
  intros (l & -> & Hl) r. subst r.
  destruct (heap w !! l) as [[ps ext|ys|]|] eqn:Hh; try done.
  - rewrite (makeJSArray_array_like_run env w l ps ext xs Hh Hl). simpl.
    assert (Hfresh : heap w !! fresh (dom (heap w)) = None)
      by (apply not_elem_of_dom, is_fresh).
    split_and!; try done.
    + by apply insert_subseteq.
    + intros _. exists (fresh (dom (heap w))). split_and!; try done.
      intros [= Heq]. rewrite Heq in Hfresh. congruence.
  - rewrite makeJSArray_array_run by (simpl; by rewrite Hh). simpl.
    split_and!; try done. by rewrite Hh.
Qed.
End MoreArrays.

Lemma makeJSArray_fills_holes_witness :
  let env := DeclaratorExamples.counting_env in
  let w := DeclaratorExamples.sparse in
  (exists a, outcome (makeJSArray env (VRef 3%N) w) = Ret (VRef a)
             /\ heap (final (makeJSArray env (VRef 3%N) w)) !! a
                = Some (OArray [VUndef; VStr "b"; VUndef]))
  /\
  (exists a, outcome (makeJSArray env (VRef 4%N) w) = Ret (VRef a)
             /\ heap (final (makeJSArray env (VRef 4%N) w)) !! a
                = Some (OArray [VStr "x"; VUndef])).
Proof.
  intros env w. split.
  - exists (fresh (dom (heap w))).
    rewrite (makeJSArray_fills_holes env w 3%N
               {[ "length" := Data (VNum (Int 3)) true true true;
                  "1" := Data (VStr "b") true true true ]} true
               (VNum (Int 3)) [VUndef; VStr "b"; VUndef]).
    + simpl. by rewrite lookup_insert_eq.
    + vm_compute. reflexivity.
    + vm_compute. reflexivity.
    + vm_compute. reflexivity.
    + intros [|[|[|i]]] y; simpl; intros [= <-]; vm_compute; reflexivity.
  - exists (fresh (dom (heap w))).
    rewrite (makeJSArray_fills_holes env w 4%N
               {[ "length" := Data (VStr "2") true true true;
                  "0" := Data (VStr "x") true true true ]} true
               (VStr "2") [VStr "x"; VUndef]).
    + simpl. by rewrite lookup_insert_eq.
    + vm_compute. reflexivity.
    + vm_compute. reflexivity.
    + vm_compute. reflexivity.
    + intros [|[|i]] y; simpl; intros [= <-]; vm_compute; reflexivity.
Defined.

Lemma makeJSArray_without_length_witness :
  let env := AccessorExamples.store_env in
  let w := AccessorExamples.started AccessorExamples.facade in
  exists a, outcome (makeJSArray env AccessorExamples.read_only_options w) = Ret (VRef a)
            /\ heap (final (makeJSArray env AccessorExamples.read_only_options w)) !! a
               = Some (OArray []).
Proof.
  intros env w. exists (fresh (dom (heap w))).
  unfold AccessorExamples.read_only_options.
  rewrite (makeJSArray_without_length env w 6%N
             {[ "readOnly" := Data (VBool true) true true true ]} true).
  - simpl. by rewrite lookup_insert_eq.
  - vm_compute. reflexivity.
  - vm_compute. reflexivity.
Defined.

Lemma makeJSArray_leaves_objects_alone_witness :
  let r := makeJSArray Examples.panel_env (VRef 9%N) Examples.with_list in
  heap Examples.with_list ⊆ heap (final r)
  /\ meta (final r) = meta Examples.with_list
  /\ host (final r) = host Examples.with_list
  /\ exists a, outcome r = Ret (VRef a)
               /\ heap Examples.with_list !! a = None /\ VRef a <> VRef 9%N.
Proof.
  intros r.
  destruct (makeJSArray_leaves_objects_alone Examples.panel_env Examples.with_list
              (VRef 9%N) Examples.three three_elements)
    as (Hsub & Hmeta & Hhost & Hnew).
  split_and!; [exact Hsub|exact Hmeta|exact Hhost|].
  apply Hnew. vm_compute. reflexivity.
Defined.
End ScriptBaseMore.

(* ===================================================================== *)
(** ** Further properties of the declarators                              *)
(* ===================================================================== *)

Module DecoratorsMore.
Import JS Decorators Contract Reading JSFacts DecoratorsSpec.

Section Store.
Context {H : Type}.
Implicit Types (w : World H) (t : loc).

Lemma then_defineMetadata (m : M H Val) key value t pk w ev w1 x :
  m w = MkRun ev w1 (Ret x) ->
  bind m (fun _ => defineMetadata key value (VRef t) pk) w
  = MkRun ev (with_meta w1 (<[(t, pk, key) := value]> (meta w1))) (Ret VUndef).
Proof.
  intros Hm. rewrite (bind_ret_run _ _ _ _ _ _ Hm), defineMetadata_run. simpl.
  by rewrite app_nil_r.
Qed.

Lemma min_run w (n : Num) t pk :
  min n (VRef t) pk w
  = MkRun [] (with_meta w (<[(t, Some pk, "pixi:min") := VNum n]> (meta w))) (Ret VUndef).
Proof. unfold min. by rewrite bind_then_ret, defineMetadata_run. Qed.

Lemma max_run w (n : Num) t pk :
  max n (VRef t) pk w
  = MkRun [] (with_meta w (<[(t, Some pk, "pixi:max") := VNum n]> (meta w))) (Ret VUndef).
Proof. unfold max. by rewrite bind_then_ret, defineMetadata_run. Qed.


Lemma driver_info_returns w b m :
  exists w1, driver_info b m w = MkRun [] w1 (Ret (fresh (dom (heap w)))).
Proof. eexists. reflexivity. Qed.

(** X15.  The decorator that [driver] returns shares its one info object:
    applied to two classes it allocates nothing and records the same
    reference for both.  A [roleRequired] on one of the classes sits
    beside the driver entry without replacing it. *)
Theorem driver_decorator_shares_info w (baseDriverType : BaseDriverType)
    typeSpecificMeta :
  let r := driver baseDriverType typeSpecificMeta w in
  exists decorator info,
    outcome r = Ret decorator
    /\ forall (w' : World H) (class1 class2 : loc) (r1 : RoleRequired),
         let r2 := bind (decorator (VRef class1))
                     (fun _ => bind (decorator (VRef class2))
                        (fun _ => roleRequired r1 (VRef class1))) w' in
         outcome r2 = Ret VUndef
         /\ heap (final r2) = heap w'
         /\ getOwnMetadata (final r2) "pixi:driver" class1 None = Some (VRef info)
         /\ getOwnMetadata (final r2) "pixi:driver" class2 None = Some (VRef info)
         /\ getOwnMetadata (final r2) "pixi:roleRequired" class1 None = Some (role r1).
Proof.
  intros r. subst r.
  destruct (driver_info_returns w (base_driver_type baseDriverType) typeSpecificMeta)
    as [w1 Hinfo].
  eexists _, (fresh (dom (heap w))). unfold driver.
  rewrite (bind_ret_run _ _ _ _ _ _ Hinfo). simpl. split; [reflexivity|].
  intros w' class1 class2 r1. unfold roleRequired, getOwnMetadata. simpl.
  split_and!; try done.
  - destruct (decide (class1 = class2)) as [->|Hne].
    + rewrite lookup_insert_ne by done. apply lookup_insert_eq.
    + rewrite !lookup_insert_ne by congruence. apply lookup_insert_eq.
  - rewrite lookup_insert_ne by done. apply lookup_insert_eq.
  - apply lookup_insert_eq.
Qed.
End Store.

Section Resources.
Context {H : Type}.
Implicit Types (w : World H) (t : loc).

Lemma resource_run w roleRequired verb t pk :
  let info := fresh (dom (heap w)) in
  let o := OPlain {[ "auth" := own_field (js_or (optional role roleRequired) (VStr ""));
                     "verb" := own_field (js_or (optional resource_verb verb)
                                                (VStr "POST")) ]} true in
  resource roleRequired verb (VRef t) pk w
  = MkRun [] (MkWorld (<[info := o]> (heap w))
                      (<[(t, Some pk, "pixi:resource") := VRef info]> (meta w))
                      (host w))
          (Ret VUndef).
Proof. reflexivity. Qed.

(** X16.  The decorator that [resource] returns builds a new info object
    at every application: applied to two different members it records
    two different references, to two objects with the same content. *)
Theorem resource_info_per_application w roleRequired verb t1 pk1 t2 pk2 :
  (t1, pk1) <> (t2, pk2) ->
  let decorator := resource roleRequired verb in
  let r := bind (decorator (VRef t1) pk1) (fun _ => decorator (VRef t2) pk2) w in
  exists info1 info2 o,
    info1 <> info2
    /\ getOwnMetadata (final r) "pixi:resource" t1 (Some pk1) = Some (VRef info1)
    /\ getOwnMetadata (final r) "pixi:resource" t2 (Some pk2) = Some (VRef info2)
    /\ heap (final r) !! info1 = Some o
    /\ heap (final r) !! info2 = Some o.
Proof.
  intros Hne decorator r. subst r decorator.
  rewrite (bind_ret_run _ _ _ _ _ _ (resource_run w roleRequired verb t1 pk1)).
  rewrite resource_run. simpl.
  set (info1 := fresh (dom (heap w))).
  set (o := OPlain _ true).
  set (info2 := fresh (dom (<[info1 := o]> (heap w)))).
  assert (Hdiff : info1 <> info2).
  { intros Heq. apply (is_fresh (dom (<[info1 := o]> (heap w)))). fold info2.
    rewrite <- Heq, dom_insert_L. set_solver. }
  exists info1, info2, o. unfold getOwnMetadata. simpl. split_and!.
  - done.
  - rewrite lookup_insert_ne by congruence. apply lookup_insert_eq.
  - apply lookup_insert_eq.
  - rewrite lookup_insert_ne by done. apply lookup_insert_eq.
  - apply lookup_insert_eq.
Qed.
End Resources.

Lemma resource_info_per_application_witness :
  let w := DeclaratorExamples.classes in
  let decorator := resource (H := nat) (Some Admin) None in
  let r := bind (decorator (VRef 1%N) "start") (fun _ => decorator (VRef 1%N) "stop") w in
  exists info1 info2 o,
    info1 <> info2
    /\ getOwnMetadata (final r) "pixi:resource" 1%N (Some "start") = Some (VRef info1)
    /\ getOwnMetadata (final r) "pixi:resource" 1%N (Some "stop") = Some (VRef info2)
    /\ heap (final r) !! info1 = Some o
    /\ heap (final r) !! info2 = Some o.
Proof.
  apply (resource_info_per_application DeclaratorExamples.classes (Some Admin) None
           1%N "start" 1%N "stop").
  discriminate.
Defined.

Section ThroughMetaSupport.
Context {H : Type} (env : HostEnv H) (metaSupport : Val).
Implicit Types (w : World H).

(** One call of [$metaSupport$] with one new object literal as its only
    argument. *)
Lemma literal_call_run m fields w :
  not_nullish metaSupport = true ->
  let o := fresh (dom (heap w)) in
  let w1 := with_heap w (<[o := OPlain fields true]> (heap w)) in
  HostDeclarators.metaSupport_call env metaSupport m
    (let* x := HostDeclarators.literal fields in ret [x]) w
  = MkRun [EvMethod metaSupport m [VRef o]]
          (call_method env metaSupport m [VRef o] w1).2
          (call_method env metaSupport m [VRef o] w1).1.
Proof.
  intros Hn o w1. unfold HostDeclarators.metaSupport_call.
  assert (Hargs : (let* x := HostDeclarators.literal (H := H) fields in ret [x]) w
                  = MkRun [] w1 (Ret [VRef o])) by reflexivity.
  destruct metaSupport; try discriminate;
    by rewrite (bind_ret_run _ _ _ _ _ _ Hargs), method_call_run.
Qed.

(** X17.  [parameter(description, optional)] hands
    [$metaSupport$.callableParameter] one new object whose [descr] is
    always a string and whose [opt] is always a boolean: the description
    given, or [""] when it is omitted, and the flag given, or [false]
    when it is omitted.  What the host returns or throws is the result. *)
Theorem parameter_defaults (description : option string) (optional : option bool) w :
  not_nullish metaSupport = true ->
  let cpd := fresh (dom (heap w)) in
  let w1 := with_heap w
              (<[cpd := OPlain {[ "descr" := own_field (VStr (default "" description));
                                  "opt" := own_field (VBool (default false optional)) ]}
                               true]> (heap w)) in
  HostDeclarators.parameter env metaSupport description optional w
  = MkRun [EvMethod metaSupport "callableParameter" [VRef cpd]]
          (call_method env metaSupport "callableParameter" [VRef cpd] w1).2
          (call_method env metaSupport "callableParameter" [VRef cpd] w1).1.
Proof.
  intros Hn cpd w1. unfold HostDeclarators.parameter.
  rewrite literal_call_run by done. fold cpd.
  assert (Hd : js_or (Decorators.optional VStr description) (VStr "")
               = VStr (default "" description)).
  { destruct description as [s|]; [|done]. unfold js_or; simpl.
    case_bool_decide; by subst. }
  assert (Ho : js_or (Decorators.optional VBool optional) (VBool false)
               = VBool (default false optional))
    by (by destruct optional as [[|]|]).
  by rewrite Hd, Ho.
Qed.

(** X18.  [field], [id] and [list] each hand
    [$metaSupport$.fieldMetadata] one new object.  It always has a
    [description] field, holding the description as given, or undefined
    when it is omitted (no default here); [id] adds [id: true] and
    [list] adds the item class as [list], and nothing else is added. *)
Theorem field_id_list_metadata (description : option string) (ofType : Val) w :
  not_nullish metaSupport = true ->
  let m := fresh (dom (heap w)) in
  let d := own_field (Decorators.optional VStr description) in
  let handed fields :=
    let w1 := with_heap w (<[m := OPlain fields true]> (heap w)) in
    MkRun [EvMethod metaSupport "fieldMetadata" [VRef m]]
          (call_method env metaSupport "fieldMetadata" [VRef m] w1).2
          (call_method env metaSupport "fieldMetadata" [VRef m] w1).1 in
  HostDeclarators.field env metaSupport description w
    = handed {[ "description" := d ]}
  /\ HostDeclarators.id env metaSupport description w
    = handed {[ "description" := d; "id" := own_field (VBool true) ]}
  /\ HostDeclarators.list env metaSupport ofType description w
    = handed {[ "description" := d; "list" := own_field ofType ]}.
Proof.
  intros Hn m d handed.
  unfold HostDeclarators.field, HostDeclarators.id, HostDeclarators.list.
  by rewrite !literal_call_run.
Qed.

(** X19.  With [$metaSupport$] undefined or null, every one of the eight
    declarators that go through it fails with a TypeError and does
    nothing else: no call is made and no argument object is created. *)
Theorem declarators_without_metaSupport
    (description : option string) (flag : option bool) (ofType : Val) w :
  not_nullish metaSupport = false ->
  let failed := MkRun [] w (Throw TypeError) in
  HostDeclarators.record env metaSupport description w = failed
  /\ HostDeclarators.property env metaSupport description flag w = failed
  /\ HostDeclarators.callable env metaSupport description w = failed
  /\ HostDeclarators.parameter env metaSupport description flag w = failed
  /\ HostDeclarators.field env metaSupport description w = failed
  /\ HostDeclarators.spotParameter env metaSupport w = failed
  /\ HostDeclarators.id env metaSupport description w = failed
  /\ HostDeclarators.list env metaSupport ofType description w = failed.
Proof.
  intros Hn failed. by destruct metaSupport.
Qed.
End ThroughMetaSupport.

Lemma parameter_defaults_witness :
  let env := DeclaratorExamples.counting_env in
  let w := DeclaratorExamples.classes in
  let r := HostDeclarators.parameter env DeclaratorExamples.metaSupport None None w in
  exists cpd,
    events r = [EvMethod DeclaratorExamples.metaSupport "callableParameter" [VRef cpd]]
    /\ outcome r = Ret (VRef cpd)
    /\ heap (final r) !! cpd
       = Some (OPlain {[ "descr" := own_field (VStr "");
                         "opt" := own_field (VBool false) ]} true).
Proof.
  intros env w r. exists (fresh (dom (heap w))). subst r.
  rewrite (parameter_defaults env DeclaratorExamples.metaSupport None None w eq_refl).
  split_and!; vm_compute; reflexivity.
Defined.

Lemma field_id_list_metadata_witness :
  let env := DeclaratorExamples.counting_env in
  let w := DeclaratorExamples.classes in
  let r := HostDeclarators.id env DeclaratorExamples.metaSupport (Some "serial") w in
  exists m,
    outcome r = Ret (VRef m)
    /\ heap (final r) !! m
       = Some (OPlain {[ "description" := own_field (VStr "serial");
                         "id" := own_field (VBool true) ]} true)
    /\ host (final r) = 1.
Proof.
  intros env w r. exists (fresh (dom (heap w))). subst r.
  destruct (field_id_list_metadata env DeclaratorExamples.metaSupport
              (Some "serial") VNull w eq_refl) as (_ & Hid & _).
  rewrite Hid. split_and!; vm_compute; reflexivity.
Defined.

Lemma declarators_without_metaSupport_witness :
  let env := DeclaratorExamples.counting_env in
  let w := DeclaratorExamples.classes in
  HostDeclarators.parameter env VUndef (Some "speed") None w
  = MkRun [] w (Throw TypeError)
  /\ HostDeclarators.record env VUndef None w = MkRun [] w (Throw TypeError).
Proof.
  intros env w.
  destruct (declarators_without_metaSupport env VUndef (Some "speed") None VNull w
              eq_refl) as (_ & _ & _ & Hparam & _).
  destruct (declarators_without_metaSupport env VUndef None None VNull w
              eq_refl) as (Hrec & _).
  split; [exact Hparam|exact Hrec].
Defined.
End DecoratorsMore.
